(** * The NewsAPI client of the front end (services/newsApi.js)

    A shallow embedding of the request client: configuration resolution,
    mode detection (direct or proxy), query building, the fetch pipeline with
    its error mapping, and the two exported operations [getTopHeadlines] and
    [searchEverything].

    The repository holds two revisions of the client that the properties
    below talk about:
    - [Client] is the revision with proxy support (endpoint 'search',
      [isProxyBase], optional chaining on the payload);
    - [Legacy] is the revision stored as
      frontend_app/src/services/newsApi.js (no modes, the key is always
      required and always sent, the payload is dereferenced directly).
    What the two share is defined once, before them. *)

From Stdlib Require Import List String Ascii ZArith NArith QArith Bool Lia.
From Stdlib Require Import DecimalString.
Import ListNotations.

Set Warnings "-register-all".

Open Scope string_scope.
Open Scope Z_scope.
Open Scope list_scope.

(** ** JavaScript strings

    A JavaScript string is a sequence of UTF-16 code units. Literals of the
    source are written [lit "..."]. *)

Definition code_unit := N.
Definition jsstring := list code_unit.

Definition lit (s : string) : jsstring :=
  map N_of_ascii (list_ascii_of_string s).

Fixpoint str_eqb (a b : jsstring) : bool :=
  match a, b with
  | [], [] => true
  | x :: a', y :: b' => N.eqb x y && str_eqb a' b'
  | _, _ => false
  end.

(** [between lo hi c]: lo <= c <= hi on code units. *)
Definition between (lo hi c : N) : bool := (N.leb lo c && N.leb c hi)%bool.

(** WhiteSpace and LineTerminator code units, the ones
    String.prototype.trim removes. *)
Definition is_white_space (c : code_unit) : bool :=
  (between 9 13 c || N.eqb c 32 || N.eqb c 160 || N.eqb c 5760
   || between 8192 8202 c || N.eqb c 8232 || N.eqb c 8233 || N.eqb c 8239
   || N.eqb c 8287 || N.eqb c 12288 || N.eqb c 65279)%bool%N.

Fixpoint drop_while {A} (p : A -> bool) (l : list A) : list A :=
  match l with
  | [] => []
  | x :: l' => if p x then drop_while p l' else l
  end.

(** s.trim() *)
Definition trim (s : jsstring) : jsstring :=
  rev (drop_while is_white_space (rev (drop_while is_white_space s))).

(** Lower-casing of one code unit. Only the code units whose lower-case
    image contains an ASCII letter are rewritten (A-Z, U+0130 and the Kelvin
    sign U+212A); the image of any other code unit lies outside ASCII, which
    the ASCII needles searched by this client cannot tell from the code unit
    itself. *)
Definition lower_unit (c : code_unit) : list code_unit :=
  if between 65 90 c then [(c + 32)%N]
  else if N.eqb c 304 then [105; 775]%N
  else if N.eqb c 8490 then [107]%N
  else [c].

(** s.toLowerCase() *)
Definition toLowerCase (s : jsstring) : jsstring := flat_map lower_unit s.

Fixpoint starts_with (needle s : jsstring) : bool :=
  match needle, s with
  | [], _ => true
  | x :: needle', y :: s' => N.eqb x y && starts_with needle' s'
  | _ :: _, [] => false
  end.

(** s.includes(needle) *)
Fixpoint includes (s needle : jsstring) : bool :=
  starts_with needle s ||
  match s with
  | [] => false
  | _ :: s' => includes s' needle
  end.

(** Canonicalize of a regular expression with the i flag and without the u
    flag: a code unit is compared through its upper-case image, except that
    a code unit outside ASCII never canonicalizes into ASCII. The patterns
    of this client are ASCII, so only a-z need folding. *)
Definition canonicalize (c : code_unit) : code_unit :=
  if between 97 122 c then (c - 32)%N else c.

(** The literal pattern [pat] matches at the start of [s], ignoring case. *)
Fixpoint ci_starts_with (pat s : jsstring) : bool :=
  match pat, s with
  | [], _ => true
  | p :: pat', c :: s' =>
      N.eqb (canonicalize p) (canonicalize c) && ci_starts_with pat' s'
  | _ :: _, [] => false
  end.

(** /pat/i.test(s) for a literal pattern [pat]. *)
Fixpoint ci_test (pat s : jsstring) : bool :=
  ci_starts_with pat s ||
  match s with
  | [] => false
  | _ :: s' => ci_test pat s'
  end.

(** s.replace(/\/*$/, ''): the first match of the pattern is the maximal run
    of slashes that ends the string. *)
Definition strip_slashes (s : jsstring) : jsstring :=
  rev (drop_while (N.eqb 47) (rev s)).

(** ** Numbers

    A Number is NaN, an infinity or a finite value. Finite doubles are
    rationals; the client only compares numbers and hands them on, it never
    computes with them, so finite values are kept as rationals. *)
Inductive number :=
| NaN
| PosInf
| NegInf
| Fin (q : Q).

Definition num (z : Z) : number := Fin (inject_Z z).

(** a < b, false when either side is NaN *)
Definition num_ltb (a b : number) : bool :=
  match a, b with
  | NaN, _ | _, NaN => false
  | _, NegInf => false
  | NegInf, _ => true
  | PosInf, _ => false
  | Fin _, PosInf => true
  | Fin p, Fin q => negb (Qle_bool q p)
  end.

(** Math.max(a, b) *)
Definition Math_max (a b : number) : number :=
  match a, b with
  | NaN, _ | _, NaN => NaN
  | _, _ => if num_ltb a b then b else a
  end.

(** Math.min(a, b) *)
Definition Math_min (a b : number) : number :=
  match a, b with
  | NaN, _ | _, NaN => NaN
  | _, _ => if num_ltb b a then b else a
  end.

(** ** Values

    The values this client receives: filter fields, parsed JSON payloads and
    the fields of error objects. Objects are plain (own properties in
    insertion order, looked up by name). *)
Inductive value :=
| VUndefined
| VNull
| VBool (b : bool)
| VNum (n : number)
| VStr (s : jsstring)
| VArr (items : list value)
| VObj (props : list (jsstring * value)).

(** ToBoolean *)
Definition truthy (v : value) : bool :=
  match v with
  | VUndefined | VNull => false
  | VBool b => b
  | VNum NaN => false
  | VNum (Fin q) => negb (Qeq_bool q 0)
  | VNum _ => true
  | VStr s => match s with [] => false | _ => true end
  | VArr _ | VObj _ => true
  end.

(** a || b *)
Definition js_or (a b : value) : value := if truthy a then a else b.

Fixpoint lookup (k : jsstring) (props : list (jsstring * value)) : value :=
  match props with
  | [] => VUndefined
  | (k', v) :: rest => if str_eqb k k' then v else lookup k rest
  end.

(** [v.k] for a value that is neither null nor undefined. None of the names
    this client reads (status, message, error, totalResults, articles, name)
    is inherited from a prototype of a primitive or of an array. *)
Definition get (v : value) (k : jsstring) : value :=
  match v with
  | VObj props => lookup k props
  | _ => VUndefined
  end.

(** v?.k *)
Definition opt_get (v : value) (k : jsstring) : value :=
  match v with
  | VUndefined | VNull => VUndefined
  | _ => get v k
  end.

(** Array.isArray(v) *)
Definition isArray (v : value) : bool :=
  match v with VArr _ => true | _ => false end.

(** v === 'literal' *)
Definition is_string (v : value) (s : jsstring) : bool :=
  match v with VStr s' => str_eqb s' s | _ => false end.

(** ** The engine

    What the JavaScript engine and the browser decide and this client only
    passes through: the parse of a numeric literal, the digits of a finite
    number, the wording of the errors the platform raises. Every property
    below holds whatever the engine answers here. *)
Record Engine := {
  (** StringToNumber on a trimmed, non-empty string (NaN when the string is
      no numeric literal) *)
  parseNumericLiteral : jsstring -> number;
  (** Number::toString of a finite number *)
  finiteToString : Q -> jsstring;
  (** message of the AbortError a cancelled fetch rejects with *)
  abortMessage : jsstring;
  (** message of the TypeError raised by reading a property of null *)
  nullReadMessage : jsstring -> jsstring
}.

Section Coercions.

Variable E : Engine.

(** Number::toString *)
Definition NumberToString (n : number) : jsstring :=
  match n with
  | NaN => lit "NaN"
  | PosInf => lit "Infinity"
  | NegInf => lit "-Infinity"
  | Fin q => finiteToString E q
  end.

(** String(v) *)
Fixpoint ToString (v : value) : jsstring :=
  match v with
  | VUndefined => lit "undefined"
  | VNull => lit "null"
  | VBool true => lit "true"
  | VBool false => lit "false"
  | VNum n => NumberToString n
  | VStr s => s
  | VArr items =>
      let element x :=
        match x with
        | VUndefined | VNull => []
        | _ => ToString x
        end in
      (fix join (l : list value) : jsstring :=
         match l with
         | [] => []
         | [x] => element x
         | x :: rest => element x ++ lit "," ++ join rest
         end) items
  | VObj _ => lit "[object Object]"
  end.

(** StringToNumber: white space is trimmed, the empty string is 0. *)
Definition StringToNumber (s : jsstring) : number :=
  match trim s with
  | [] => num 0
  | t => parseNumericLiteral E t
  end.

(** Number(v) *)
Definition ToNumber (v : value) : number :=
  match v with
  | VUndefined => NaN
  | VNull => num 0
  | VBool true => num 1
  | VBool false => num 0
  | VNum n => n
  | VStr s => StringToNumber s
  | VArr _ | VObj _ => StringToNumber (ToString v)
  end.

End Coercions.

(** ** URLSearchParams *)

(** Code points of a string, a lone surrogate read as U+FFFD. *)
Fixpoint code_points (s : jsstring) : list N :=
  match s with
  | [] => []
  | c :: rest =>
      if between 55296 56319 c then
        match rest with
        | d :: rest' =>
            if between 56320 57343 d
            then (65536 + (c - 55296) * 1024 + (d - 56320))%N :: code_points rest'
            else 65533%N :: code_points rest
        | [] => [65533%N]
        end
      else if between 56320 57343 c then 65533%N :: code_points rest
      else c :: code_points rest
  end.

Definition utf8_bytes (cp : N) : list N :=
  (if cp <? 128 then [cp]
   else if cp <? 2048 then [192 + cp / 64; 128 + cp mod 64]
   else if cp <? 65536 then
     [224 + cp / 4096; 128 + (cp / 64) mod 64; 128 + cp mod 64]
   else [240 + cp / 262144; 128 + (cp / 4096) mod 64;
         128 + (cp / 64) mod 64; 128 + cp mod 64])%N.

Definition hex_digit (d : N) : code_unit :=
  (if d <? 10 then 48 + d else 55 + d)%N.

(** One byte of the application/x-www-form-urlencoded serializer. *)
Definition urlencode_byte (b : N) : jsstring :=
  if N.eqb b 32 then lit "+"
  else if (N.eqb b 42 || N.eqb b 45 || N.eqb b 46 || between 48 57 b
           || between 65 90 b || N.eqb b 95 || between 97 122 b)%bool
  then [b]
  else lit "%" ++ [hex_digit (b / 16)%N; hex_digit (b mod 16)%N].

Definition urlencode (s : jsstring) : jsstring :=
  flat_map urlencode_byte (flat_map utf8_bytes (code_points s)).

(** searchParams.set(key, value): the first pair named [key] takes the value
    and the other pairs of that name go; a new name is appended. *)
Fixpoint searchParams_set (l : list (jsstring * jsstring)) (k v : jsstring)
  : list (jsstring * jsstring) :=
  match l with
  | [] => [(k, v)]
  | (k', v') :: rest =>
      if str_eqb k' k
      then (k, v) :: filter (fun kv => negb (str_eqb (fst kv) k)) rest
      else (k', v') :: searchParams_set rest k v
  end.

(** searchParams.toString() *)
Fixpoint searchParams_toString (l : list (jsstring * jsstring)) : jsstring :=
  match l with
  | [] => []
  | [(k, v)] => urlencode k ++ lit "=" ++ urlencode v
  | (k, v) :: rest =>
      urlencode k ++ lit "=" ++ urlencode v ++ lit "&"
      ++ searchParams_toString rest
  end.

(** A params object: its entries in insertion order. *)
Definition params := list (jsstring * value).

Section Query.

Variable E : Engine.

(** The callback of buildQuery on one entry: undefined, null and '' are
    skipped, anything else is set as a string. *)
Definition query_step (sp : list (jsstring * jsstring))
  (kv : jsstring * value) : list (jsstring * jsstring) :=
  match snd kv with
  | VUndefined | VNull | VStr [] => sp
  | v => searchParams_set sp (fst kv) (ToString E v)
  end.

(** The pairs buildQuery collects over Object.entries(params). *)
Definition queryPairs (p : params) : list (jsstring * jsstring) :=
  fold_left query_step p [].

Definition buildQuery (p : params) : jsstring :=
  searchParams_toString (queryPairs p).

(** `${base}/${path}${query ? `?${query}` : ''}` *)
Definition make_url (base path query : jsstring) : jsstring :=
  base ++ lit "/" ++ path
  ++ match query with [] => [] | _ => lit "?" ++ query end.

End Query.

(** ** Errors, promises and the network *)

(** An instance of Error with the properties this client sets or reads;
    an absent property is [VUndefined]. *)
Record error_obj := mkError {
  err_name : value;
  err_message : value;
  err_code : value;
  err_status : value;
  err_details : value
}.

(** new Error(message) *)
Definition new_Error (message : jsstring) : error_obj :=
  mkError (VStr (lit "Error")) (VStr message) VUndefined VUndefined VUndefined.

Definition set_code (e : error_obj) (c : value) : error_obj :=
  mkError (err_name e) (err_message e) c (err_status e) (err_details e).

Definition set_status (e : error_obj) (s : value) : error_obj :=
  mkError (err_name e) (err_message e) (err_code e) s (err_details e).

Definition set_details (e : error_obj) (d : value) : error_obj :=
  mkError (err_name e) (err_message e) (err_code e) (err_status e) d.

(** What a throw or a rejection carries: an Error instance, or any other
    value. *)
Inductive thrown :=
| ThrownError (e : error_obj)
| ThrownValue (v : value).

Record request := mkRequest {
  req_url : jsstring;
  req_method : jsstring;
  req_headers : list (jsstring * jsstring)
}.

(** A response: its status and its body as res.json() parses it; [None]
    when res.json() rejects, be it that the body is not JSON, that the
    connection is lost or that the request is aborted while the body is
    read. *)
Record response := mkResponse {
  res_status : Z;
  res_json : option value
}.

(** res.ok: the status is in the range 200-299. *)
Definition res_ok (r : response) : bool :=
  (200 <=? res_status r) && (res_status r <=? 299).

Inductive abort_cause := TimedOut | Cancelled.

(** What happens to a request once it is sent: a response arrives, the
    transport fails with some rejection, or the request is aborted first,
    by the 15 s timer of doFetch or by the caller's signal. *)
Inductive net_event :=
| Responds (r : response)
| Fails (t : thrown)
| Aborts (c : abort_cause).

(** The outcome of an async function. *)
Inductive completion (A : Type) :=
| Fulfilled (a : A)
| Rejected (t : thrown).
Arguments Fulfilled {A} a.
Arguments Rejected {A} t.

(** An async computation: the requests it asked fetch to send, with a signal
    that was not yet aborted, in order, and its outcome. *)
Definition async (A : Type) : Type := list request * completion A.

Definition ret {A} (a : A) : async A := ([], Fulfilled a).

Definition throw {A} (t : thrown) : async A := ([], Rejected t).

Definition bind {A B} (m : async A) (k : A -> async B) : async B :=
  match m with
  | (log, Fulfilled a) => let (log', r) := k a in (log ++ log', r)
  | (log, Rejected t) => (log, Rejected t)
  end.

(** try { m } catch (err) { handler(err) } *)
Definition try_catch {A} (m : async A) (handler : thrown -> async A)
  : async A :=
  match m with
  | (log, Fulfilled a) => (log, Fulfilled a)
  | (log, Rejected t) => let (log', r) := handler t in (log ++ log', r)
  end.

Declare Scope async_scope.
Delimit Scope async_scope with async.
Notation "x <- m ;; k" := (bind m (fun x => k))
  (at level 61, m at next level, right associativity) : async_scope.

Definition sent {A} (m : async A) : list request := fst m.
Definition outcome {A} (m : async A) : completion A := snd m.

(** The caller's AbortSignal: absent, or present with its [aborted] flag at
    the time of the call. *)
Definition signal := option bool.

(** linkSignal(externalSignal): is the internal controller aborted before
    fetch is called? *)
Definition linkSignal (sig : signal) : bool :=
  match sig with
  | Some aborted => aborted
  | None => false
  end.

Section Platform.

Variable E : Engine.

(** The DOMException of an aborted fetch (legacy code 20, ABORT_ERR). *)
Definition AbortError : error_obj :=
  mkError (VStr (lit "AbortError")) (VStr (abortMessage E)) (VNum (num 20))
    VUndefined VUndefined.

(** The TypeError of [null.k]. *)
Definition NullReadError (k : jsstring) : error_obj :=
  mkError (VStr (lit "TypeError")) (VStr (nullReadMessage E k)) VUndefined
    VUndefined VUndefined.

(** fetch(url, { method, headers, signal }): with a signal that is already
    aborted the promise rejects and nothing is sent; otherwise the request
    is recorded and the event decides. The record is of what the client asks
    fetch to send. A fetch that refuses its arguments (a URL that does not
    parse, a header value that is not valid) rejects with a TypeError of the
    platform, which is a [Fails] event whose error the platform words as it
    likes, the refused value included; the request recorded for such a run
    was never put on the wire. *)
Definition fetch (ev : net_event) (aborted : bool) (req : request)
  : async response :=
  if aborted then throw (ThrownError AbortError)
  else
    ([req],
     match ev with
     | Responds r => Fulfilled r
     | Fails t => Rejected t
     | Aborts _ => Rejected (ThrownError AbortError)
     end).

(** [v.k], which throws on null and undefined. *)
Definition member (v : value) (k : jsstring) : async value :=
  match v with
  | VUndefined | VNull => throw (ThrownError (NullReadError k))
  | _ => ret (get v k)
  end.

End Platform.

(** ** What the two revisions share *)

(** [err.k] on whatever was caught. *)
Definition thrown_get (t : thrown) (field : error_obj -> value)
  (k : jsstring) : value :=
  match t with
  | ThrownError e => field e
  | ThrownValue v => get v k
  end.

Definition thrown_truthy (t : thrown) : bool :=
  match t with
  | ThrownError _ => true
  | ThrownValue v => truthy v
  end.

(** a || b on numbers *)
Definition num_or (a b : number) : number :=
  if truthy (VNum a) then a else b.

(** { a = d }: the default of a destructured property. *)
Definition or_default (v d : value) : value :=
  match v with
  | VUndefined => d
  | _ => v
  end.

Section Shared.

Variable E : Engine.

Definition isNetworkOrCORSError (err : thrown) : bool :=
  if negb (thrown_truthy err) then false
  else
    let msg :=
      toLowerCase
        (ToString E (js_or (thrown_get err err_message (lit "message"))
                           (VStr []))) in
    is_string (thrown_get err err_name (lit "name")) (lit "TypeError")
    && (includes msg (lit "failed to fetch")
        || includes msg (lit "networkerror")
        || includes msg (lit "load failed")
        || includes msg (lit "cors")).

(** const safePageSize = Math.min(Math.max(1, Number(pageSize) || 10), 100) *)
Definition safePageSize (pageSize : value) : number :=
  Math_min (Math_max (num 1) (num_or (ToNumber E pageSize) (num 10)))
    (num 100).

(** const safePage = Math.max(1, Number(page) || 1) *)
Definition safePage (page : value) : number :=
  Math_max (num 1) (num_or (ToNumber E page) (num 1)).

(** The params object of getTopHeadlines. *)
Definition headlineParams (filters : params) : params :=
  let country := or_default (lookup (lit "country") filters) (VStr (lit "us")) in
  let category := lookup (lit "category") filters in
  let pageSize := or_default (lookup (lit "pageSize") filters) (VNum (num 10)) in
  let page := or_default (lookup (lit "page") filters) (VNum (num 1)) in
  [(lit "country", country);
   (lit "pageSize", VNum (safePageSize pageSize));
   (lit "page", VNum (safePage page))]
  ++ (if truthy category then [(lit "category", category)] else []).

(** const query = String(q || '').trim() *)
Definition searchQuery (filters : params) : jsstring :=
  trim (ToString E (js_or (lookup (lit "q") filters) (VStr []))).

(** The params object of searchEverything. *)
Definition searchParams (filters : params) : params :=
  let sortBy :=
    or_default (lookup (lit "sortBy") filters) (VStr (lit "publishedAt")) in
  let language :=
    or_default (lookup (lit "language") filters) (VStr (lit "en")) in
  let pageSize := or_default (lookup (lit "pageSize") filters) (VNum (num 10)) in
  let page := or_default (lookup (lit "page") filters) (VNum (num 1)) in
  let allowed :=
    is_string sortBy (lit "relevancy") || is_string sortBy (lit "popularity")
    || is_string sortBy (lit "publishedAt") in
  let sort := if allowed then sortBy else VStr (lit "publishedAt") in
  [(lit "q", VStr (searchQuery filters));
   (lit "sortBy", sort);
   (lit "language", language);
   (lit "pageSize", VNum (safePageSize pageSize));
   (lit "page", VNum (safePage page))].

(** The error searchEverything throws on an empty query. *)
Definition validationError : error_obj :=
  set_code (new_Error (lit "Please enter a search term."))
    (VStr (lit "VALIDATION")).

(** /^https?:\/\//i.test(base) *)
Definition has_http_scheme (base : jsstring) : bool :=
  ci_starts_with (lit "http://") base || ci_starts_with (lit "https://") base.

(** data = await res.json(), null when that throws *)
Definition parsed_body (res : response) : value :=
  match res_json res with
  | Some v => v
  | None => VNull
  end.

(** The rejection of an HTTP failure: new Error(errMsg) with status and
    details. *)
Definition httpError (errMsg : value) (res : response) (data : value)
  : error_obj :=
  set_details
    (set_status (new_Error (ToString E errMsg)) (VNum (num (res_status res))))
    data.

End Shared.

(** process.env as the build exposes it: each variable is a string or
    undefined. *)
Record environment := mkEnv {
  REACT_APP_NEWS_API_BASE : option jsstring;
  REACT_APP_NEWS_API_KEY : option jsstring;
  REACT_APP_REACT_APP_NEWS_API_BASE : option jsstring;
  REACT_APP_API_BASE : option jsstring;
  REACT_APP_NEWS_APP_BASE : option jsstring;
  REACT_APP_REACT_APP_NEWSAPI_KEY : option jsstring
}.

Definition env_value (o : option jsstring) : value :=
  match o with
  | Some s => VStr s
  | None => VUndefined
  end.

Definition DEFAULT_BASE : jsstring := lit "https://newsapi.org/v2".

(** { base, apiKey } *)
Record config := mkConfig {
  base : jsstring;
  apiKey : value
}.

(** { totalResults, articles } *)
Record QueryResult := mkResult {
  totalResults : value;
  articles : value
}.

(** ** The client with proxy support *)
Module Client.

Section WithEngine.

Variable E : Engine.

Definition stripTrailingSlashes (s : value) : jsstring :=
  strip_slashes (ToString E (js_or s (VStr []))).

(** !/newsapi\.org/i.test(base || '') *)
Definition isProxyBase (base : jsstring) : bool :=
  negb (ci_test (lit "newsapi.org") (ToString E (js_or (VStr base) (VStr [])))).

Definition getNewsApiConfig (env : environment) : config :=
  let legacyBase :=
    js_or (env_value (REACT_APP_REACT_APP_NEWS_API_BASE env))
      (js_or (env_value (REACT_APP_API_BASE env))
         (env_value (REACT_APP_NEWS_APP_BASE env))) in
  let baseRaw :=
    js_or (env_value (REACT_APP_NEWS_API_BASE env))
      (js_or legacyBase (VStr DEFAULT_BASE)) in
  let base := stripTrailingSlashes baseRaw in
  let apiKey := js_or (env_value (REACT_APP_NEWS_API_KEY env)) VUndefined in
  mkConfig base apiKey.

Definition mapApiError (status : Z) (payload : value) : value :=
  if status =? 429 then
    VStr (lit "Rate limit reached. Please wait a minute before trying again.")
  else
    let message :=
      js_or (opt_get payload (lit "message"))
        (js_or (opt_get payload (lit "error"))
           (VStr (lit "Unexpected error contacting news service."))) in
    if status >=? 500 then
      VStr (lit "News service is currently unavailable. Please try again later.")
    else if (status =? 401) || (status =? 403) then
      VStr (lit "Unauthorized: Please ensure a valid NewsAPI key is configured (direct mode) or proxy is authorized.")
    else message.

Definition networkError (url mode : jsstring) : error_obj :=
  set_details
    (set_code
       (new_Error
          (lit "Network/CORS error: Unable to reach the news service ("
           ++ mode
           ++ lit "). If using a proxy, ensure REACT_APP_NEWS_API_BASE points to it and that the proxy is running. Otherwise verify CORS/network access and try again."))
       (VStr (lit "NETWORK")))
    (VObj [(lit "url", VStr url); (lit "mode", VStr mode)]).

Definition toUserFacingError (err : thrown) (url mode : jsstring)
  : error_obj :=
  if isNetworkOrCORSError E err then networkError url mode
  else
    match err with
    | ThrownError e => e
    | ThrownValue _ => new_Error (lit "Unexpected error occurred.")
    end.

Definition invalidBaseError : error_obj :=
  set_code
    (new_Error (lit "Invalid NewsAPI base URL. Ensure REACT_APP_NEWS_API_BASE starts with http(s)://"))
    (VStr (lit "CONFIG")).

Definition missingKeyError : error_obj :=
  set_code
    (new_Error (lit "NewsAPI key is missing. Set REACT_APP_NEWS_API_KEY in your environment or use the proxy."))
    (VStr (lit "CONFIG")).

(** The path of a logical endpoint. *)
Definition resolvePath (proxy : bool) (endpoint : jsstring) : jsstring :=
  if str_eqb endpoint (lit "search")
  then (if proxy then lit "search" else lit "everything")
  else endpoint.

(** The headers of the request. *)
Definition requestHeaders (proxy : bool) (apiKey : value)
  : list (jsstring * jsstring) :=
  if proxy then [] else [(lit "X-Api-Key", ToString E apiKey)].

Definition doFetch (env : environment) (ev : net_event)
  (endpoint : jsstring) (p : params) (externalSignal : signal)
  : async value :=
  let cfg := getNewsApiConfig env in
  let proxy := isProxyBase (base cfg) in
  let mode := if proxy then lit "proxy" else lit "direct" in
  if negb (has_http_scheme (base cfg)) then
    throw (ThrownError invalidBaseError)
  else if negb proxy && negb (truthy (apiKey cfg)) then
    throw (ThrownError missingKeyError)
  else
    let path := resolvePath proxy endpoint in
    let query := buildQuery E p in
    let url := make_url (base cfg) path query in
    let aborted := linkSignal externalSignal in
    (res <- try_catch
              (fetch E ev aborted
                 (mkRequest url (lit "GET") (requestHeaders proxy (apiKey cfg))))
              (fun err => throw (ThrownError (toUserFacingError err url mode))) ;;
     let data := parsed_body res in
     if negb (res_ok res) || is_string (opt_get data (lit "status")) (lit "error")
     then
       let errMsg := mapApiError (res_status res) data in
       throw (ThrownError (httpError E errMsg res data))
     else ret data)%async.

(** { totalResults: data?.totalResults || 0,
      articles: Array.isArray(data?.articles) ? data.articles : [] } *)
Definition normalize (data : value) : QueryResult :=
  mkResult
    (js_or (opt_get data (lit "totalResults")) (VNum (num 0)))
    (if isArray (opt_get data (lit "articles"))
     then get data (lit "articles")
     else VArr []).

Definition getTopHeadlines (env : environment) (ev : net_event)
  (filters : params) (sig : signal) : async QueryResult :=
  (data <- doFetch env ev (lit "top-headlines") (headlineParams E filters) sig ;;
   ret (normalize data))%async.

Definition searchEverything (env : environment) (ev : net_event)
  (filters : params) (sig : signal) : async QueryResult :=
  let query := searchQuery E filters in
  if negb (truthy (VStr query)) then
    throw (ThrownError validationError)
  else
    (data <- doFetch env ev (lit "search") (searchParams E filters) sig ;;
     ret (normalize data))%async.

End WithEngine.

End Client.

(** ** The client stored as services/newsApi.js: no modes *)
Module Legacy.

Section WithEngine.

Variable E : Engine.

Definition getNewsApiConfig (env : environment) : config :=
  let baseRaw :=
    js_or (env_value (REACT_APP_NEWS_API_BASE env)) (VStr DEFAULT_BASE) in
  let base := strip_slashes (ToString E baseRaw) in
  let apiKey :=
    js_or (env_value (REACT_APP_NEWS_API_KEY env))
      (env_value (REACT_APP_REACT_APP_NEWSAPI_KEY env)) in
  mkConfig base apiKey.

Definition mapApiError (status : Z) (payload : value) : value :=
  if status =? 429 then
    VStr (lit "Rate limit reached. Please wait a minute before trying again.")
  else
    let message :=
      js_or (opt_get payload (lit "message"))
        (js_or (opt_get payload (lit "error"))
           (VStr (lit "Unexpected error contacting news service."))) in
    if status >=? 500 then
      VStr (lit "News service is currently unavailable. Please try again later.")
    else if (status =? 401) || (status =? 403) then
      VStr (lit "Unauthorized: Please ensure a valid NewsAPI key is configured.")
    else message.

Definition networkError (url : jsstring) : error_obj :=
  set_details
    (set_code
       (new_Error
          (lit "Network/CORS error: Unable to reach the news service. This can occur if your browser blocked the request or the service is unavailable."))
       (VStr (lit "NETWORK")))
    (VObj [(lit "url", VStr url)]).

Definition toUserFacingError (err : thrown) (url : jsstring) : error_obj :=
  if isNetworkOrCORSError E err then networkError url
  else
    match err with
    | ThrownError e => e
    | ThrownValue _ => new_Error (lit "Unexpected error occurred.")
    end.

Definition missingKeyError : error_obj :=
  set_code
    (new_Error (lit "NewsAPI key is missing. Set REACT_APP_NEWS_API_KEY in your environment."))
    (VStr (lit "CONFIG")).

Definition invalidBaseError : error_obj :=
  set_code
    (new_Error (lit "Invalid NewsAPI base URL. Ensure REACT_APP_NEWS_API_BASE starts with http(s)://"))
    (VStr (lit "CONFIG")).

Definition doFetch (env : environment) (ev : net_event)
  (endpoint : jsstring) (p : params) (externalSignal : signal)
  : async value :=
  let cfg := getNewsApiConfig env in
  if negb (truthy (apiKey cfg)) then
    throw (ThrownError missingKeyError)
  else if negb (has_http_scheme (base cfg)) then
    throw (ThrownError invalidBaseError)
  else
    let query := buildQuery E p in
    let url := make_url (base cfg) endpoint query in
    let aborted := linkSignal externalSignal in
    (res <- try_catch
              (fetch E ev aborted
                 (mkRequest url (lit "GET")
                    [(lit "X-Api-Key", ToString E (apiKey cfg))]))
              (fun err => throw (ThrownError (toUserFacingError err url))) ;;
     let data := parsed_body res in
     if negb (res_ok res) || is_string (opt_get data (lit "status")) (lit "error")
     then
       let errMsg := mapApiError (res_status res) data in
       throw (ThrownError (httpError E errMsg res data))
     else ret data)%async.

(** { totalResults: data.totalResults || 0,
      articles: Array.isArray(data.articles) ? data.articles : [] } *)
Definition normalize (data : value) : async QueryResult :=
  (total <- member E data (lit "totalResults") ;;
   list <- member E data (lit "articles") ;;
   ret (mkResult
          (js_or total (VNum (num 0)))
          (if isArray list then list else VArr [])))%async.

Definition getTopHeadlines (env : environment) (ev : net_event)
  (filters : params) (sig : signal) : async QueryResult :=
  (data <- doFetch env ev (lit "top-headlines") (headlineParams E filters) sig ;;
   normalize data)%async.

Definition searchEverything (env : environment) (ev : net_event)
  (filters : params) (sig : signal) : async QueryResult :=
  let query := searchQuery E filters in
  if negb (truthy (VStr query)) then
    throw (ThrownError validationError)
  else
    (data <- doFetch env ev (lit "everything") (searchParams E filters) sig ;;
     normalize data)%async.

End WithEngine.

End Legacy.

(** ** A reference engine

    An engine to run the client on concrete inputs. Its numeric literals are
    the decimal integers (with an optional sign) and Infinity, and it prints
    integers in decimal; that is all the runs below need. *)
Module Reference.

Definition is_digit (c : code_unit) : bool := between 48 57 c.

Definition digits_value (s : jsstring) : Z :=
  fold_left (fun acc c => 10 * acc + Z.of_N (c - 48)) s 0.

Definition parse_unsigned (s : jsstring) : number :=
  if str_eqb s (lit "Infinity") then PosInf
  else
    match s with
    | [] => NaN
    | _ => if forallb is_digit s then num (digits_value s) else NaN
    end.

Definition negate (n : number) : number :=
  match n with
  | NaN => NaN
  | PosInf => NegInf
  | NegInf => PosInf
  | Fin q => Fin (- q)
  end.

Definition parse_literal (s : jsstring) : number :=
  match s with
  | 45%N :: rest => negate (parse_unsigned rest)
  | 43%N :: rest => parse_unsigned rest
  | _ => parse_unsigned s
  end.

Definition decimal (z : Z) : jsstring :=
  lit (DecimalString.NilZero.string_of_int (Z.to_int z)).

Definition print_finite (q : Q) : jsstring :=
  let r := Qred q in
  match Qden r with
  | 1%positive => decimal (Qnum r)
  | d => decimal (Qnum r) ++ lit "/" ++ decimal (Zpos d)
  end.

Definition engine : Engine := {|
  parseNumericLiteral := parse_literal;
  finiteToString := print_finite;
  abortMessage := lit "signal is aborted without reason";
  nullReadMessage :=
    fun k => lit "Cannot read properties of null (reading '" ++ k ++ lit "')"
|}.

End Reference.

(** * Vocabulary of the properties *)

(** The promise rejects with an Error whose [code] is the string [c]. *)
Definition rejects_with_code {A} (m : async A) (c : jsstring) : Prop :=
  exists e, outcome m = Rejected (ThrownError e) /\ err_code e = VStr c.



(** The response is an HTTP failure: a status outside 200-299, or a payload
    whose status field says error. *)
Definition http_failure (r : response) : Prop :=
  res_ok r = false
  \/ is_string (opt_get (parsed_body r) (lit "status")) (lit "error") = true.

(** [c] is the letter [p] of a lower-case pattern, in either case. *)
Definition same_letter (p c : code_unit) : Prop :=
  c = p \/ (between 97 122 p = true /\ c = (p - 32)%N).

(** [s] contains [pat] somewhere, letters compared without case. *)
Definition mentions (pat s : jsstring) : Prop :=
  exists pre mid post, s = pre ++ mid ++ post /\ Forall2 same_letter pat mid.

(** No upper-case letter in the pattern. *)
Definition lower_pattern (pat : jsstring) : Prop :=
  Forall (fun p => between 65 90 p = false) pat.

(** The base URL references the host of the upstream news API. *)
Definition references_host (b : jsstring) : Prop :=
  mentions (lit "newsapi.org") b.



Definition is_zero_or_NaN (n : number) : Prop :=
  match n with
  | NaN => True
  | Fin q => (q == 0)%Q
  | _ => False
  end.

Definition is_negative (n : number) : Prop :=
  match n with
  | NegInf => True
  | Fin q => (q < 0)%Q
  | _ => False
  end.

(** The clamp of safePageSize, case by case on the coerced input. *)
Definition clamp_page_size (n : number) : number :=
  match n with
  | NaN => num 10
  | PosInf => num 100
  | NegInf => num 1
  | Fin q =>
      if Qeq_bool q 0 then num 10
      else if Qle_bool q (inject_Z 1) then num 1
      else if Qle_bool q (inject_Z 100) then Fin q
      else num 100
  end.

(** The clamp of safePageSize on an integer. *)
Definition clamp_page_size_Z (z : Z) : Z :=
  if z =? 0 then 10 else if z <=? 1 then 1 else if z <=? 100 then z else 100.

(** The clamp of safePage, case by case on the coerced input. *)
Definition clamp_page (n : number) : number :=
  match n with
  | NaN => num 1
  | PosInf => PosInf
  | NegInf => num 1
  | Fin q =>
      if Qeq_bool q 0 then num 1
      else if Qle_bool q (inject_Z 1) then num 1
      else Fin q
  end.

(** The pageSize and page filters after destructuring with their defaults. *)
Definition pageSize_input (filters : params) : value :=
  or_default (lookup (lit "pageSize") filters) (VNum (num 10)).

Definition page_input (filters : params) : value :=
  or_default (lookup (lit "page") filters) (VNum (num 1)).

(** The value of a name in a list of query pairs. *)
Fixpoint query_field (k : jsstring) (q : list (jsstring * jsstring))
  : option jsstring :=
  match q with
  | [] => None
  | (k', v) :: rest => if str_eqb k' k then Some v else query_field k rest
  end.

(** The request's URL ends in a query string whose pageSize and page are
    the numbers [n] and [p]. *)
Definition carries_paging (E : Engine) (r : request) (n p : number) : Prop :=
  exists b path q,
    req_url r = make_url b path (searchParams_toString q)
    /\ query_field (lit "pageSize") q = Some (NumberToString E n)
    /\ query_field (lit "page") q = Some (NumberToString E p).

(** The environment with another value of REACT_APP_NEWS_API_KEY. *)
Definition with_key (env : environment) (key : jsstring) : environment :=
  mkEnv (REACT_APP_NEWS_API_BASE env) (Some key)
    (REACT_APP_REACT_APP_NEWS_API_BASE env) (REACT_APP_API_BASE env)
    (REACT_APP_NEWS_APP_BASE env) (REACT_APP_REACT_APP_NEWSAPI_KEY env).


Definition map_completion {A B} (g : A -> B) (c : completion A)
  : completion B :=
  match c with
  | Fulfilled a => Fulfilled (g a)
  | Rejected t => Rejected t
  end.

(** payload?.message || payload?.error || the generic fallback *)
Definition payload_message (data : value) : value :=
  js_or (opt_get data (lit "message"))
    (js_or (opt_get data (lit "error"))
       (VStr (lit "Unexpected error contacting news service."))).

(** The rejection of an HTTP failure: it carries the status and the raw
    payload, and its message follows the status. *)
Definition classified_failure (E : Engine) (r : response) {A}
  (c : completion A) : Prop :=
  exists e msg,
    c = Rejected (ThrownError e)
    /\ err_message e = VStr msg
    /\ err_status e = VNum (num (res_status r))
    /\ err_details e = parsed_body r
    /\ (res_status r = 429 ->
        msg = lit "Rate limit reached. Please wait a minute before trying again."
        /\ includes (toLowerCase msg) (lit "wait") = true)
    /\ (res_status r >= 500 ->
        msg = lit "News service is currently unavailable. Please try again later.")
    /\ (res_status r = 401 \/ res_status r = 403 ->
        msg = lit "Unauthorized: Please ensure a valid NewsAPI key is configured (direct mode) or proxy is authorized.")
    /\ (res_status r <> 429 -> res_status r < 500 ->
        res_status r <> 401 -> res_status r <> 403 ->
        msg = ToString E (payload_message (parsed_body r))).


Module ClientSpec.

Section WithEngine.

Variable E : Engine.

Definition proxy_mode (env : environment) : bool :=
  Client.isProxyBase E (base (Client.getNewsApiConfig E env)).

Definition mode_name (env : environment) : jsstring :=
  if proxy_mode env then lit "proxy" else lit "direct".

(** The URL doFetch builds. *)
Definition url_of (env : environment) (endpoint : jsstring) (p : params)
  : jsstring :=
  make_url (base (Client.getNewsApiConfig E env))
    (Client.resolvePath (proxy_mode env) endpoint) (buildQuery E p).

(** The one request doFetch can send. *)
Definition request_of (env : environment) (endpoint : jsstring) (p : params)
  : request :=
  mkRequest (url_of env endpoint p) (lit "GET")
    (Client.requestHeaders E (proxy_mode env)
       (apiKey (Client.getNewsApiConfig E env))).

(** What doFetch does with a response. *)
Definition settle (r : response) : completion value :=
  if negb (res_ok r)
     || is_string (opt_get (parsed_body r) (lit "status")) (lit "error")
  then Rejected
         (ThrownError
            (httpError E (Client.mapApiError (res_status r) (parsed_body r))
               r (parsed_body r)))
  else Fulfilled (parsed_body r).

(** What doFetch does with the event once the request is out. *)
Definition after_request (env : environment) (ev : net_event)
  (endpoint : jsstring) (p : params) : completion value :=
  match ev with
  | Responds r => settle r
  | Fails t =>
      Rejected
        (ThrownError
           (Client.toUserFacingError E t (url_of env endpoint p)
              (mode_name env)))
  | Aborts _ =>
      Rejected
        (ThrownError
           (Client.toUserFacingError E (ThrownError (AbortError E))
              (url_of env endpoint p) (mode_name env)))
  end.

End WithEngine.

End ClientSpec.

Module LegacySpec.

Section WithEngine.

Variable E : Engine.

Definition url_of (env : environment) (endpoint : jsstring) (p : params)
  : jsstring :=
  make_url (base (Legacy.getNewsApiConfig E env)) endpoint (buildQuery E p).

Definition request_of (env : environment) (endpoint : jsstring) (p : params)
  : request :=
  mkRequest (url_of env endpoint p) (lit "GET")
    [(lit "X-Api-Key", ToString E (apiKey (Legacy.getNewsApiConfig E env)))].

Definition settle (r : response) : completion value :=
  if negb (res_ok r)
     || is_string (opt_get (parsed_body r) (lit "status")) (lit "error")
  then Rejected
         (ThrownError
            (httpError E (Legacy.mapApiError (res_status r) (parsed_body r))
               r (parsed_body r)))
  else Fulfilled (parsed_body r).

Definition after_request (env : environment) (ev : net_event)
  (endpoint : jsstring) (p : params) : completion value :=
  match ev with
  | Responds r => settle r
  | Fails t =>
      Rejected
        (ThrownError (Legacy.toUserFacingError E t (url_of env endpoint p)))
  | Aborts _ =>
      Rejected
        (ThrownError
           (Legacy.toUserFacingError E (ThrownError (AbortError E))
              (url_of env endpoint p)))
  end.

End WithEngine.

End LegacySpec.

(** Concrete inputs for the runs below. *)
Module Sample.

Definition R : Engine := Reference.engine.

(** Nothing configured: the default base, no key. *)
Definition bare : environment := mkEnv None None None None None None.

(** Direct mode with a key. *)
Definition direct : environment := with_key bare (lit "SECRET123").

(** A proxy, no key. *)
Definition proxied : environment :=
  mkEnv (Some (lit "http://localhost:3010/api/news/")) None None None None
    None.

(** A proxy, with a key left in the environment. *)
Definition proxied_with_key : environment := with_key proxied (lit "SECRET123").

(** A 200 response with two articles. *)
Definition two_articles : response :=
  mkResponse 200
    (Some (VObj [(lit "status", VStr (lit "ok"));
                 (lit "totalResults", VNum (num 2));
                 (lit "articles",
                  VArr [VObj [(lit "title", VStr (lit "a"))];
                        VObj [(lit "title", VStr (lit "b"))]])])).

(** A 200 response whose body is not JSON. *)
Definition not_json : response := mkResponse 200 None.


(** What fetch rejects with when the browser cannot reach the host. *)
Definition failed_to_fetch : thrown :=
  ThrownError
    (mkError (VStr (lit "TypeError")) (VStr (lit "Failed to fetch"))
       VUndefined VUndefined VUndefined).

Definition rate_limited : response :=
  mkResponse 429
    (Some (VObj [(lit "status", VStr (lit "error"));
                 (lit "message", VStr (lit "Too many requests."))])).

End Sample.

(** * The views that call the client

    The two views hold three pieces of state, loading, error and articles,
    and hand them to the NewsList component. A handler runs in two steps
    that other handlers can come between: what it does before it awaits the
    client, and what it does once the client's promise has settled. Each
    step is a function on the state. *)

Record view_state := mkView {
  st_loading : bool;
  st_error : value;
  st_articles : value
}.

(** The state of useState(false), useState('') and useState([]). *)
Definition initial_view : view_state := mkView false (VStr []) (VArr []).

Definition setLoading (b : bool) (s : view_state) : view_state :=
  mkView b (st_error s) (st_articles s).

Definition setError (e : value) (s : view_state) : view_state :=
  mkView (st_loading s) e (st_articles s).

Definition setArticles (a : value) (s : view_state) : view_state :=
  mkView (st_loading s) (st_error s) a.

(** v?.length *)
Definition opt_length (v : value) : value :=
  match v with
  | VUndefined | VNull => VUndefined
  | VArr items => VNum (num (Z.of_nat (List.length items)))
  | VStr s => VNum (num (Z.of_nat (List.length s)))
  | VObj props => lookup (lit "length") props
  | _ => VUndefined
  end.

(** v === 0 *)
Definition is_zero (v : value) : bool :=
  match v with
  | VNum (Fin q) => Qeq_bool q 0
  | _ => false
  end.

(** e?.k on what a catch clause receives. *)
Definition caught_get (e : thrown) (field : error_obj -> value)
  (k : jsstring) : value :=
  match e with
  | ThrownError err => field err
  | ThrownValue v => opt_get v k
  end.

(** The signal of a controller that was just created. *)
Definition fresh_signal : signal := Some false.

(** The search view (the revision that adds hints to the message). *)
Module SearchView.

Section WithEngine.

Variable E : Engine.

(** The catch clause's message. *)
Definition enriched (e : thrown) : value :=
  let msg :=
    js_or (caught_get e err_message (lit "message"))
      (VStr (lit "Failed to search news.")) in
  if is_string (caught_get e err_code (lit "code")) (lit "NETWORK") then
    VStr (ToString E msg
          ++ lit " If this persists, verify CORS/network access and try again.")
  else if is_string (caught_get e err_code (lit "code")) (lit "CONFIG") then
    VStr (ToString E msg
          ++ lit " Please configure REACT_APP_NEWS_API_KEY (and optional REACT_APP_NEWS_API_BASE).")
  else msg.

(** handleSearch before its await: setLoading(true); setError(''). *)
Definition handleSearch_begin (s : view_state) : view_state :=
  setError (VStr []) (setLoading true s).

(** handleSearch once searchEverything has settled: the rest of the try
    block or the catch clause, then finally. *)
Definition handleSearch_resume (o : completion QueryResult) (s : view_state)
  : view_state :=
  let s :=
    match o with
    | Fulfilled res =>
        let s := setArticles (articles res) s in
        if negb (truthy (opt_length (articles res)))
        then setError (VStr (lit "No results found for your query.")) s
        else s
    | Rejected e =>
        let s := setArticles (VArr []) s in
        setError (enriched e) s
    end in
  setLoading false s.

End WithEngine.

End SearchView.

(** The search form: what handleSubmit passes to onSearch. *)
Module NewsSearch.

Definition handleSubmit (q sortBy language : jsstring) : params :=
  [(lit "q", VStr q);
   (lit "sortBy", VStr sortBy);
   (lit "language", VStr language);
   (lit "page", VNum (num 1))].

End NewsSearch.

(** The headlines view. *)
Module TopHeadlinesView.

Section WithEngine.

Variable E : Engine.

(** const fetchParams = { country, category: category || undefined,
    pageSize: 12, page }, where page stays at its initial 1. *)
Definition fetchParams (country category : jsstring) : params :=
  [(lit "country", VStr country);
   (lit "category", js_or (VStr category) VUndefined);
   (lit "pageSize", VNum (num 12));
   (lit "page", VNum (num 1))].

(** The catch handler's message. *)
Definition enriched (e : thrown) : value :=
  let msg :=
    js_or (caught_get e err_message (lit "message"))
      (VStr (lit "Failed to load top headlines.")) in
  if is_string (caught_get e err_code (lit "code")) (lit "NETWORK") then
    VStr (ToString E msg
          ++ lit " If you're using a proxy, ensure REACT_APP_NEWS_API_BASE points to it and that the proxy is running. Otherwise verify CORS/network access and try again.")
  else if is_string (caught_get e err_code (lit "code")) (lit "CONFIG") then
    VStr (ToString E msg
          ++ lit " For direct NewsAPI usage, set REACT_APP_NEWS_API_KEY. To avoid CORS, set REACT_APP_NEWS_API_BASE to your proxy (e.g., http://localhost:3010/api/news).")
  else msg.




End WithEngine.

End TopHeadlinesView.

(** Which of its four returns NewsList takes. The cards of the last one
    (the map over the articles) are not modelled. *)
Inductive rendering :=
| Skeletons
| ErrorBanner (error : value)
| EmptyNotice
| ArticleGrid (articles : value).

Definition NewsList (articles : value) (loading : bool) (error : value)
  : rendering :=
  if loading then Skeletons
  else if truthy error then ErrorBanner error
  else if negb (truthy articles) || is_zero (opt_length articles)
  then EmptyNotice
  else ArticleGrid articles.

(** <NewsList articles={articles} loading={loading} error={error} /> *)
Definition render (s : view_state) : rendering :=
  NewsList (st_articles s) (st_loading s) (st_error s).

(** * Vocabulary of the further properties *)

Definition ends_with_slash (s : jsstring) : Prop :=
  exists s', s = s' ++ [47%N].

Definition all_slashes (s : jsstring) : Prop :=
  Forall (fun c => c = 47%N) s.

(** The first variable that is set to a non-empty string. *)
Fixpoint first_set (vars : list (option jsstring)) : option jsstring :=
  match vars with
  | [] => None
  | Some (c :: s) :: _ => Some (c :: s)
  | _ :: rest => first_set rest
  end.

(** The string begins with [scheme], letters compared without case. *)
Definition begins_with (scheme s : jsstring) : Prop :=
  exists head rest, s = head ++ rest /\ Forall2 same_letter scheme head.

(** What buildQuery makes of one value: nothing for undefined, null and '',
    its string otherwise. *)
Definition query_value (E : Engine) (v : value) : option jsstring :=
  match v with
  | VUndefined | VNull | VStr [] => None
  | _ => Some (ToString E v)
  end.

(** The rejection, if any, carries an Error instance. *)
Definition rejects_only_with_errors {A} (m : async A) : Prop :=
  match outcome m with
  | Rejected (ThrownValue _) => False
  | _ => True
  end.

(** The sort orders the upstream knows. *)
Definition allowed_sort : list jsstring :=
  [lit "relevancy"; lit "popularity"; lit "publishedAt"].

(** A TypeError with the given message, as fetch rejects with. *)
Definition TypeError (message : jsstring) : thrown :=
  ThrownError
    (mkError (VStr (lit "TypeError")) (VStr message) VUndefined VUndefined
       VUndefined).

(** The fragments isNetworkOrCORSError looks for. *)
Definition network_fragments : list jsstring :=
  [lit "failed to fetch"; lit "networkerror"; lit "load failed"; lit "cors"].

(** The environment sets the base only through REACT_APP_NEWS_API_BASE. *)
Definition no_legacy_base (env : environment) : Prop :=
  first_set [REACT_APP_REACT_APP_NEWS_API_BASE env; REACT_APP_API_BASE env;
             REACT_APP_NEWS_APP_BASE env] = None.



(** The coercions safePageSize turns into 1: those that are not zero and at
    most 1. *)
Definition clamps_to_one (n : number) : Prop :=
  match n with
  | NegInf => True
  | Fin q => ~ (q == 0)%Q /\ (q <= 1)%Q
  | _ => False
  end.


(** More concrete inputs. *)
Module Inputs.






(** A page size of one half. *)
Definition half_page : params := [(lit "pageSize", VNum (Fin (1 # 2)))].

(** A base that is no http(s) URL. *)
Definition ftp_base : environment :=
  mkEnv (Some (lit "ftp://example.org/news")) (Some (lit "SECRET123")) None
    None None None.

(** What the search form submits for the query ' rocq ' sorted by 'bogus'. *)
Definition form_search : params :=
  NewsSearch.handleSubmit (lit " rocq ") (lit "bogus") (lit "en").

Definition no_articles : response :=
  mkResponse 200
    (Some (VObj [(lit "status", VStr (lit "ok"));
                 (lit "totalResults", VNum (num 0));
                 (lit "articles", VArr [])])).

End Inputs.

(** * Properties *)

(** ** Strings *)

Lemma str_eqb_eq a b : str_eqb a b = true <-> a = b.
Proof.
  revert b. induction a as [|x a IH]; intros [|y b]; simpl;
    try (split; discriminate); [tauto|].
  rewrite andb_true_iff, N.eqb_eq, IH.
  split; [intros [-> ->]; reflexivity|intros [= -> ->]; auto].
Qed.

Lemma str_eqb_refl a : str_eqb a a = true.
Proof. apply str_eqb_eq. reflexivity. Qed.

Lemma between_spec lo hi c :
  between lo hi c = true <-> (lo <= c /\ c <= hi)%N.
Proof.
  unfold between. rewrite andb_true_iff, !N.leb_le. tauto.
Qed.

(** For a pattern letter that is not an upper-case one, matching under the
    i flag is being the same letter in either case. *)
Lemma canonicalize_same_letter p c :
  between 65 90 p = false ->
  N.eqb (canonicalize p) (canonicalize c) = true <-> same_letter p c.
Proof.
  intro Hup. rewrite N.eqb_eq. unfold canonicalize, same_letter.
  assert (Hn : ~ (65 <= p /\ p <= 90)%N).
  { rewrite <- between_spec. congruence. }
  destruct (between 97 122 p) eqn:Hp, (between 97 122 c) eqn:Hc;
    try (apply between_spec in Hp); try (apply between_spec in Hc);
    try (assert (Hp' : ~ (97 <= p /\ p <= 122)%N)
           by (rewrite <- between_spec; congruence));
    try (assert (Hc' : ~ (97 <= c /\ c <= 122)%N)
           by (rewrite <- between_spec; congruence));
    split; intro H; try lia;
    try (destruct H as [H|[H1 H]]; try discriminate; lia).
Qed.

Lemma ci_starts_with_spec pat s :
  lower_pattern pat ->
  ci_starts_with pat s = true <->
  exists mid post, s = mid ++ post /\ Forall2 same_letter pat mid.
Proof.
  intro Hpat. revert s. induction Hpat as [|p pat Hp Hpat IH]; intro s.
  - simpl. split; [|reflexivity].
    intros _. exists [], s. split; [reflexivity|constructor].
  - destruct s as [|c s]; simpl.
    + split; [discriminate|].
      intros (mid & post & Heq & Hall). inversion Hall; subst. discriminate.
    + rewrite andb_true_iff, (canonicalize_same_letter p c Hp), IH.
      split.
      * intros (Hc & mid & post & -> & Hall).
        exists (c :: mid), post. split; [reflexivity|constructor; assumption].
      * intros (mid & post & Heq & Hall).
        inversion Hall as [|p' c' pat' mid' Hc Hall']; subst.
        injection Heq as -> ->.
        split; [assumption|]. exists mid', post. split; [reflexivity|assumption].
Qed.

(** The search of /pat/i finds exactly the strings that mention [pat]. *)
Lemma ci_test_spec pat s :
  lower_pattern pat -> ci_test pat s = true <-> mentions pat s.
Proof.
  intro Hpat. unfold mentions. induction s as [|c s IH].
  - simpl. rewrite orb_false_r, (ci_starts_with_spec pat [] Hpat).
    split.
    + intros (mid & post & Heq & Hall). exists [], mid, post. split; assumption.
    + intros (pre & mid & post & Heq & Hall).
      symmetry in Heq. apply app_eq_nil in Heq. destruct Heq as [-> Heq].
      exists mid, post. split; [symmetry; assumption|assumption].
  - simpl. rewrite orb_true_iff, IH, (ci_starts_with_spec pat (c :: s) Hpat).
    split.
    + intros [(mid & post & Heq & Hall)|(pre & mid & post & Heq & Hall)].
      * exists [], mid, post. split; assumption.
      * exists (c :: pre), mid, post. split; [rewrite Heq; reflexivity|assumption].
    + intros (pre & mid & post & Heq & Hall).
      destruct pre as [|c' pre].
      * left. exists mid, post. split; assumption.
      * right. injection Heq as -> ->. exists pre, mid, post.
        split; [reflexivity|assumption].
Qed.

Lemma host_pattern_is_lower : lower_pattern (lit "newsapi.org").
Proof. repeat constructor. Qed.

Section ModeFacts.

Variable E : Engine.

Lemma isProxyBase_spec b :
  Client.isProxyBase E b = false <-> references_host b.
Proof.
  unfold Client.isProxyBase, references_host.
  rewrite negb_false_iff.
  replace (ToString E (js_or (VStr b) (VStr []))) with b
    by (destruct b; reflexivity).
  apply ci_test_spec, host_pattern_is_lower.
Qed.

Lemma isProxyBase_true b :
  Client.isProxyBase E b = true <-> ~ references_host b.
Proof.
  rewrite <- isProxyBase_spec. destruct (Client.isProxyBase E b); split;
    congruence.
Qed.

End ModeFacts.

(** ** Page size and page number *)

Section Paging.

Variable E : Engine.

Lemma safePageSize_cases v :
  safePageSize E v = clamp_page_size (ToNumber E v).
Proof.
  unfold safePageSize, clamp_page_size.
  destruct (ToNumber E v) as [| | |q]; try reflexivity.
  unfold num_or, truthy.
  destruct (Qeq_bool q 0) eqn:Hz; [reflexivity|].
  cbn [negb].
  unfold Math_max, Math_min, num_ltb, num.
  destruct (Qle_bool q (inject_Z 1)) eqn:H1; cbn [negb]; [reflexivity|].
  destruct (Qle_bool q (inject_Z 100)) eqn:H2; reflexivity.
Qed.

Lemma safePage_cases v :
  safePage E v = clamp_page (ToNumber E v).
Proof.
  unfold safePage, clamp_page.
  destruct (ToNumber E v) as [| | |q]; try reflexivity.
  unfold num_or, truthy.
  destruct (Qeq_bool q 0) eqn:Hz; [reflexivity|].
  cbn [negb].
  unfold Math_max, num_ltb, num.
  destruct (Qle_bool q (inject_Z 1)) eqn:H1; reflexivity.
Qed.

End Paging.




Lemma clamp_page_size_zero_or_NaN n :
  is_zero_or_NaN n -> clamp_page_size n = num 10.
Proof.
  destruct n as [| | |q]; cbn; try tauto.
  intro H. apply Qeq_bool_iff in H. rewrite H. reflexivity.
Qed.

Lemma clamp_page_zero_or_NaN n :
  is_zero_or_NaN n -> clamp_page n = num 1.
Proof.
  destruct n as [| | |q]; cbn; try tauto.
  intro H. apply Qeq_bool_iff in H. rewrite H. reflexivity.
Qed.

Lemma clamp_page_size_negative n :
  is_negative n -> clamp_page_size n = num 1.
Proof.
  destruct n as [| | |q]; cbn; try tauto.
  intro H.
  destruct (Qeq_bool q 0) eqn:Hz.
  - apply Qeq_bool_iff in Hz. rewrite Hz in H. discriminate.
  - assert (H1 : Qle_bool q (inject_Z 1) = true).
    { apply Qle_bool_iff, Qlt_le_weak.
      eapply Qlt_trans; [exact H|reflexivity]. }
    rewrite H1. reflexivity.
Qed.


Lemma num_injective a b : num a = num b -> a = b.
Proof. intros [= H]. exact H. Qed.

Lemma Qeq_bool_inject_Z a b : Qeq_bool (inject_Z a) (inject_Z b) = (a =? b).
Proof.
  destruct (a =? b) eqn:H.
  - apply Z.eqb_eq in H. subst. apply Qeq_bool_iff. reflexivity.
  - destruct (Qeq_bool (inject_Z a) (inject_Z b)) eqn:Hq; [|reflexivity].
    apply Qeq_bool_iff in Hq. unfold Qeq in Hq. simpl in Hq.
    apply Z.eqb_neq in H. lia.
Qed.

Lemma Qle_bool_inject_Z a b : Qle_bool (inject_Z a) (inject_Z b) = (a <=? b).
Proof.
  destruct (a <=? b) eqn:H.
  - apply Z.leb_le in H. rewrite Zle_Qle in H. apply Qle_bool_iff. exact H.
  - destruct (Qle_bool (inject_Z a) (inject_Z b)) eqn:Hq; [|reflexivity].
    apply Qle_bool_iff in Hq. rewrite <- Zle_Qle in Hq.
    apply Z.leb_gt in H. lia.
Qed.

Lemma clamp_page_size_integer z :
  clamp_page_size (num z) = num (clamp_page_size_Z z).
Proof.
  unfold clamp_page_size, clamp_page_size_Z, num.
  change 0%Q with (inject_Z 0).
  rewrite Qeq_bool_inject_Z, !Qle_bool_inject_Z.
  destruct (z =? 0); [reflexivity|].
  destruct (z <=? 1); [reflexivity|].
  destruct (z <=? 100); reflexivity.
Qed.

(** Of the integers, the negative ones are those the clamp raises to 1. *)
Lemma raised_to_one_iff_negative z :
  clamp_page_size (num z) = num 1 /\ z <> 1 <-> z < 0.
Proof.
  rewrite clamp_page_size_integer. unfold clamp_page_size_Z.
  split.
  - intros [H Hne]. apply num_injective in H.
    destruct (z =? 0) eqn:H0; [discriminate|].
    destruct (z <=? 1) eqn:H1.
    + apply Z.eqb_neq in H0. apply Z.leb_le in H1. lia.
    + destruct (z <=? 100); [apply Z.leb_gt in H1; lia|discriminate].
  - intro H. split; [|lia].
    destruct (z =? 0) eqn:H0; [apply Z.eqb_eq in H0; lia|].
    destruct (z <=? 1) eqn:H1; [reflexivity|apply Z.leb_gt in H1; lia].
Qed.

(** ** The query string *)

Lemma query_field_filter k k' q :
  str_eqb k' k = false ->
  query_field k (filter (fun kv => negb (str_eqb (fst kv) k')) q)
  = query_field k q.
Proof.
  intro Hne. induction q as [|[k0 v0] q IH]; simpl; [reflexivity|].
  destruct (str_eqb k0 k') eqn:H0; simpl.
  - apply str_eqb_eq in H0. subst k0. rewrite Hne. exact IH.
  - rewrite IH. reflexivity.
Qed.

Lemma query_field_set_same q k v :
  query_field k (searchParams_set q k v) = Some v.
Proof.
  induction q as [|[k0 v0] q IH]; simpl.
  - rewrite str_eqb_refl. reflexivity.
  - destruct (str_eqb k0 k) eqn:H0; simpl.
    + rewrite str_eqb_refl. reflexivity.
    + rewrite H0. exact IH.
Qed.

Lemma query_field_set_other q k k' v :
  str_eqb k' k = false ->
  query_field k (searchParams_set q k' v) = query_field k q.
Proof.
  intro Hne. induction q as [|[k0 v0] q IH]; simpl.
  - rewrite Hne. reflexivity.
  - destruct (str_eqb k0 k') eqn:H0; simpl.
    + apply str_eqb_eq in H0. subst k0. rewrite Hne.
      apply query_field_filter. exact Hne.
    + rewrite IH. reflexivity.
Qed.

Section QueryFacts.

Variable E : Engine.

Lemma queryPairs_snoc p kv :
  queryPairs E (p ++ [kv]) = query_step E (queryPairs E p) kv.
Proof. unfold queryPairs. rewrite fold_left_app. reflexivity. Qed.

Lemma query_field_step_other sp k k' v :
  str_eqb k' k = false ->
  query_field k (query_step E sp (k', v)) = query_field k sp.
Proof.
  intro Hne. unfold query_step. simpl.
  destruct v as [| | | |[|]| |]; try reflexivity;
    apply query_field_set_other; exact Hne.
Qed.

Lemma query_field_step_number sp k n :
  query_field k (query_step E sp (k, VNum n)) = Some (NumberToString E n).
Proof. apply query_field_set_same. Qed.

Lemma paging_steps sp n p :
  let q :=
    query_step E (query_step E sp (lit "pageSize", VNum n))
      (lit "page", VNum p) in
  query_field (lit "pageSize") q = Some (NumberToString E n)
  /\ query_field (lit "page") q = Some (NumberToString E p).
Proof.
  split.
  - rewrite query_field_step_other by reflexivity.
    apply query_field_step_number.
  - apply query_field_step_number.
Qed.

Lemma headline_query_paging filters :
  let q := queryPairs E (headlineParams E filters) in
  query_field (lit "pageSize") q
  = Some (NumberToString E (safePageSize E (pageSize_input filters)))
  /\ query_field (lit "page") q
     = Some (NumberToString E (safePage E (page_input filters))).
Proof.
  unfold headlineParams. cbv zeta.
  fold (pageSize_input filters). fold (page_input filters).
  set (n := safePageSize E _). set (p := safePage E _).
  set (c := or_default _ _).
  destruct (truthy _).
  - change ([(lit "country", c); (lit "pageSize", VNum n); (lit "page", VNum p)]
            ++ [(lit "category", lookup (lit "category") filters)])
      with (([(lit "country", c)] ++ [(lit "pageSize", VNum n)]
             ++ [(lit "page", VNum p)])
            ++ [(lit "category", lookup (lit "category") filters)]).
    rewrite queryPairs_snoc.
    rewrite !query_field_step_other by reflexivity.
    apply (paging_steps (query_step E [] (lit "country", c))).
  - rewrite app_nil_r.
    apply (paging_steps (query_step E [] (lit "country", c))).
Qed.

Lemma search_query_paging filters :
  let q := queryPairs E (searchParams E filters) in
  query_field (lit "pageSize") q
  = Some (NumberToString E (safePageSize E (pageSize_input filters)))
  /\ query_field (lit "page") q
     = Some (NumberToString E (safePage E (page_input filters))).
Proof.
  unfold searchParams. cbv zeta.
  fold (pageSize_input filters). fold (page_input filters).
  set (n := safePageSize E _). set (p := safePage E _).
  match goal with
  | |- context [queryPairs E (?a :: ?b :: ?c :: ?d :: ?e :: [])] =>
      change (queryPairs E [a; b; c; d; e]) with
        (query_step E (query_step E (queryPairs E [a; b; c]) d) e)
  end.
  apply paging_steps.
Qed.

End QueryFacts.

(** ** Runs of the client *)

Lemma bind_ret {A B} (m : async A) (g : A -> B) :
  bind m (fun a => ret (g a)) = (sent m, map_completion g (outcome m)).
Proof.
  destruct m as [log [a|t]]; simpl; [rewrite app_nil_r|]; reflexivity.
Qed.

Section ClientRuns.

Variable E : Engine.

Import ClientSpec.

(** doFetch, branch by branch. *)
Lemma doFetch_run env ev endpoint p sig :
  Client.doFetch E env ev endpoint p sig =
  if negb (has_http_scheme (base (Client.getNewsApiConfig E env))) then
    throw (ThrownError Client.invalidBaseError)
  else if negb (proxy_mode E env)
          && negb (truthy (apiKey (Client.getNewsApiConfig E env))) then
    throw (ThrownError Client.missingKeyError)
  else if linkSignal sig then
    ([], Rejected
           (ThrownError
              (Client.toUserFacingError E (ThrownError (AbortError E))
                 (url_of E env endpoint p) (mode_name E env))))
  else ([request_of E env endpoint p], after_request E env ev endpoint p).
Proof.
  unfold Client.doFetch, after_request, request_of, url_of, mode_name,
    proxy_mode, settle.
  destruct (has_http_scheme _); [|reflexivity].
  destruct (Client.isProxyBase _ _), (truthy (apiKey _));
    try reflexivity;
    (destruct sig as [[|]|]; [reflexivity| |]);
    (destruct ev as [r| |]; [|reflexivity|reflexivity]);
    unfold fetch, try_catch, bind, linkSignal;
    destruct (negb (res_ok r) || _); reflexivity.
Qed.

(** The checks doFetch makes before it calls fetch, case by case. *)
Ltac doFetch_checks env sig :=
  unfold sent, outcome, throw;
  destruct (has_http_scheme (base (Client.getNewsApiConfig E env))),
    (proxy_mode E env), (truthy (apiKey (Client.getNewsApiConfig E env))),
    (linkSignal sig);
  cbn [negb andb fst snd].

(** Whatever doFetch sends is the one request of the call. *)
Lemma doFetch_sent env ev endpoint p sig r :
  In r (sent (Client.doFetch E env ev endpoint p sig)) ->
  r = request_of E env endpoint p
  /\ sent (Client.doFetch E env ev endpoint p sig) = [r]
  /\ outcome (Client.doFetch E env ev endpoint p sig)
     = after_request E env ev endpoint p
  /\ has_http_scheme (base (Client.getNewsApiConfig E env)) = true
  /\ (proxy_mode E env = false ->
      truthy (apiKey (Client.getNewsApiConfig E env)) = true).
Proof.
  rewrite doFetch_run. doFetch_checks env sig; cbn [In]; try tauto;
    intros [<-|[]]; repeat split; auto.
Qed.

Lemma doFetch_sent_nonempty env ev endpoint p sig :
  sent (Client.doFetch E env ev endpoint p sig) <> [] ->
  In (request_of E env endpoint p)
    (sent (Client.doFetch E env ev endpoint p sig)).
Proof.
  intro H.
  destruct (sent (Client.doFetch E env ev endpoint p sig)) as [|r l] eqn:Hs;
    [congruence|].
  assert (Hin : In r (sent (Client.doFetch E env ev endpoint p sig)))
    by (rewrite Hs; left; reflexivity).
  apply doFetch_sent in Hin. destruct Hin as (-> & Hone & _).
  rewrite Hs in Hone. rewrite Hone. left. reflexivity.
Qed.

Lemma getTopHeadlines_run env ev filters sig :
  Client.getTopHeadlines E env ev filters sig =
  let d :=
    Client.doFetch E env ev (lit "top-headlines") (headlineParams E filters)
      sig in
  (sent d, map_completion Client.normalize (outcome d)).
Proof. unfold Client.getTopHeadlines. apply bind_ret. Qed.

Lemma searchEverything_run env ev filters sig :
  Client.searchEverything E env ev filters sig =
  match searchQuery E filters with
  | [] => throw (ThrownError validationError)
  | _ =>
      let d :=
        Client.doFetch E env ev (lit "search") (searchParams E filters) sig in
      (sent d, map_completion Client.normalize (outcome d))
  end.
Proof.
  unfold Client.searchEverything.
  destruct (searchQuery E filters); [reflexivity|].
  cbn [truthy negb]. apply bind_ret.
Qed.

Lemma getTopHeadlines_sent env ev filters sig :
  sent (Client.getTopHeadlines E env ev filters sig)
  = sent (Client.doFetch E env ev (lit "top-headlines")
            (headlineParams E filters) sig).
Proof. rewrite getTopHeadlines_run. reflexivity. Qed.

Lemma getTopHeadlines_outcome env ev filters sig :
  outcome (Client.getTopHeadlines E env ev filters sig)
  = map_completion Client.normalize
      (outcome (Client.doFetch E env ev (lit "top-headlines")
                  (headlineParams E filters) sig)).
Proof. rewrite getTopHeadlines_run. reflexivity. Qed.

Lemma searchEverything_sent env ev filters sig :
  searchQuery E filters <> [] ->
  sent (Client.searchEverything E env ev filters sig)
  = sent (Client.doFetch E env ev (lit "search") (searchParams E filters)
            sig).
Proof.
  rewrite searchEverything_run.
  destruct (searchQuery E filters); [congruence|reflexivity].
Qed.

Lemma searchEverything_outcome env ev filters sig :
  searchQuery E filters <> [] ->
  outcome (Client.searchEverything E env ev filters sig)
  = map_completion Client.normalize
      (outcome (Client.doFetch E env ev (lit "search")
                  (searchParams E filters) sig)).
Proof.
  rewrite searchEverything_run.
  destruct (searchQuery E filters); [congruence|reflexivity].
Qed.

Lemma searchEverything_empty env ev filters sig :
  searchQuery E filters = [] ->
  Client.searchEverything E env ev filters sig
  = throw (ThrownError validationError).
Proof. rewrite searchEverything_run. intros ->. reflexivity. Qed.

(** A search that sends anything had a query. *)
Lemma searchEverything_sent_query env ev filters sig :
  sent (Client.searchEverything E env ev filters sig) <> [] ->
  searchQuery E filters <> [].
Proof.
  intros H Hq. apply H. rewrite (searchEverything_empty _ _ _ _ Hq).
  reflexivity.
Qed.

(** Once the request is out, the outcome of doFetch is what follows it. *)
Lemma doFetch_outcome_after_request env ev endpoint p sig :
  sent (Client.doFetch E env ev endpoint p sig) <> [] ->
  outcome (Client.doFetch E env ev endpoint p sig)
  = after_request E env ev endpoint p.
Proof.
  intro H. apply doFetch_sent_nonempty, doFetch_sent in H. tauto.
Qed.

End ClientRuns.

Section LegacyRuns.

Variable E : Engine.

Import LegacySpec.

Lemma legacy_doFetch_run env ev endpoint p sig :
  Legacy.doFetch E env ev endpoint p sig =
  if negb (truthy (apiKey (Legacy.getNewsApiConfig E env))) then
    throw (ThrownError Legacy.missingKeyError)
  else if negb (has_http_scheme (base (Legacy.getNewsApiConfig E env))) then
    throw (ThrownError Legacy.invalidBaseError)
  else if linkSignal sig then
    ([], Rejected
           (ThrownError
              (Legacy.toUserFacingError E (ThrownError (AbortError E))
                 (url_of E env endpoint p))))
  else ([request_of E env endpoint p], after_request E env ev endpoint p).
Proof.
  unfold Legacy.doFetch, after_request, request_of, url_of, settle.
  destruct (truthy (apiKey _)); [|reflexivity].
  destruct (has_http_scheme _); [|reflexivity].
  destruct sig as [[|]|]; [reflexivity| |];
    (destruct ev as [r| |]; [|reflexivity|reflexivity]);
    unfold fetch, try_catch, bind, linkSignal;
    destruct (negb (res_ok r) || _); reflexivity.
Qed.

Lemma legacy_doFetch_sent env ev endpoint p sig r :
  In r (sent (Legacy.doFetch E env ev endpoint p sig)) ->
  r = request_of E env endpoint p
  /\ sent (Legacy.doFetch E env ev endpoint p sig) = [r]
  /\ outcome (Legacy.doFetch E env ev endpoint p sig)
     = after_request E env ev endpoint p.
Proof.
  rewrite legacy_doFetch_run. unfold sent, outcome, throw.
  destruct (truthy (apiKey (Legacy.getNewsApiConfig E env))),
    (has_http_scheme _), (linkSignal sig);
    cbn [negb andb fst snd In]; try tauto;
    intros [<-|[]]; repeat split; auto.
Qed.

Lemma sent_bind_first {A B} (m : async A) (k : A -> async B) r :
  (forall a, sent (k a) = []) -> In r (sent (bind m k)) -> In r (sent m).
Proof.
  intros Hk. destruct m as [log [a|t]]; unfold bind, sent; simpl.
  - specialize (Hk a). unfold sent in Hk. destruct (k a) as [log' c].
    simpl in *. subst log'. rewrite app_nil_r. auto.
  - auto.
Qed.

Lemma legacy_normalize_sends_nothing data :
  sent (Legacy.normalize E data) = [].
Proof. destruct data; reflexivity. Qed.

Lemma legacy_getTopHeadlines_sent env ev filters sig r :
  In r (sent (Legacy.getTopHeadlines E env ev filters sig)) ->
  r = request_of E env (lit "top-headlines") (headlineParams E filters).
Proof.
  intro H. apply sent_bind_first in H;
    [|apply legacy_normalize_sends_nothing].
  apply legacy_doFetch_sent in H. tauto.
Qed.

Lemma legacy_searchEverything_sent env ev filters sig r :
  In r (sent (Legacy.searchEverything E env ev filters sig)) ->
  r = request_of E env (lit "everything") (searchParams E filters).
Proof.
  unfold Legacy.searchEverything.
  destruct (negb (truthy (VStr (searchQuery E filters)))); [intros []|].
  intro H. apply sent_bind_first in H;
    [|apply legacy_normalize_sends_nothing].
  apply legacy_doFetch_sent in H. tauto.
Qed.

(** The revision without modes puts the key on every request. *)
Lemma legacy_requests_carry_the_key env ev filters sig r :
  In r (sent (Legacy.getTopHeadlines E env ev filters sig))
  \/ In r (sent (Legacy.searchEverything E env ev filters sig)) ->
  req_headers r
  = [(lit "X-Api-Key", ToString E (apiKey (Legacy.getNewsApiConfig E env)))].
Proof.
  intros [H|H];
    [apply legacy_getTopHeadlines_sent in H
    |apply legacy_searchEverything_sent in H];
    subst r; reflexivity.
Qed.

(** On a payload that is null the revision without modes throws where it
    reads totalResults. *)
Lemma legacy_normalize_null :
  Legacy.normalize E VNull
  = throw (ThrownError (NullReadError E (lit "totalResults"))).
Proof. reflexivity. Qed.

(** So a response that parses to null makes getTopHeadlines reject, once
    the request has gone out and the status is in 200-299. *)
Lemma legacy_null_payload_rejects env filters sig r :
  res_ok r = true -> parsed_body r = VNull ->
  sent (Legacy.getTopHeadlines E env (Responds r) filters sig) <> [] ->
  outcome (Legacy.getTopHeadlines E env (Responds r) filters sig)
  = Rejected (ThrownError (NullReadError E (lit "totalResults"))).
Proof.
  intros Hok Hnull. unfold Legacy.getTopHeadlines.
  rewrite legacy_doFetch_run. unfold settle, after_request, LegacySpec.settle, throw.
  destruct (truthy (apiKey _)); cbn [negb];
    [|intro H; exfalso; apply H; reflexivity].
  destruct (has_http_scheme _); cbn [negb];
    [|intro H; exfalso; apply H; reflexivity].
  destruct (linkSignal sig); [intro H; exfalso; apply H; reflexivity|].
  intros _. rewrite Hok, Hnull. reflexivity.
Qed.

(** On any other payload it normalizes like the revision with modes. *)
Lemma legacy_normalize_not_null data :
  data <> VNull -> data <> VUndefined ->
  Legacy.normalize E data = ret (Client.normalize data).
Proof.
  destruct data; try congruence; intros _ _; reflexivity.
Qed.

End LegacyRuns.

Section ClientResults.

Variable E : Engine.

Import ClientSpec.

(** normalize always yields an array for articles. *)
Lemma normalize_articles data :
  articles (Client.normalize data)
  = match opt_get data (lit "articles") with
    | VArr items => VArr items
    | _ => VArr []
    end.
Proof.
  unfold Client.normalize, articles.
  destruct data as [| | | | | |props]; try reflexivity.
  cbn [opt_get get]. destruct (lookup (lit "articles") props); reflexivity.
Qed.

Lemma normalize_totalResults data :
  totalResults (Client.normalize data)
  = js_or (opt_get data (lit "totalResults")) (VNum (num 0)).
Proof. reflexivity. Qed.

Lemma normalize_articles_is_array data :
  exists items, articles (Client.normalize data) = VArr items.
Proof.
  rewrite normalize_articles.
  destruct (opt_get data (lit "articles")); eauto.
Qed.

(** doFetch resolves only with the parsed body of a response whose status
    is in 200-299. *)
Lemma doFetch_resolves env ev endpoint p sig data :
  outcome (Client.doFetch E env ev endpoint p sig) = Fulfilled data ->
  exists r, ev = Responds r /\ res_ok r = true /\ data = parsed_body r.
Proof.
  rewrite doFetch_run. unfold outcome, throw.
  destruct (has_http_scheme _), (proxy_mode E env),
    (truthy (apiKey (Client.getNewsApiConfig E env))), (linkSignal sig);
    cbn [negb andb snd]; try discriminate;
    (destruct ev as [r| |]; cbn [after_request]; try discriminate);
    unfold settle; (destruct (res_ok r) eqn:Hok; cbn [negb orb];
                    try discriminate);
    (destruct (is_string _ _); try discriminate);
    intros [= <-]; eauto.
Qed.

(** Every value the proxy-aware client resolves with is the normalized
    payload of a successful response, and its articles are an array. *)
Lemma client_result_is_normalized env ev filters sig res :
  outcome (Client.getTopHeadlines E env ev filters sig) = Fulfilled res
  \/ outcome (Client.searchEverything E env ev filters sig) = Fulfilled res ->
  exists r,
    ev = Responds r /\ res_ok r = true
    /\ res = Client.normalize (parsed_body r)
    /\ (exists items, articles res = VArr items).
Proof.
  assert (Hd : forall endpoint p,
             map_completion Client.normalize
               (outcome (Client.doFetch E env ev endpoint p sig))
             = Fulfilled res ->
             exists r,
               ev = Responds r /\ res_ok r = true
               /\ res = Client.normalize (parsed_body r)
               /\ (exists items, articles res = VArr items)).
  { intros endpoint p H.
    destruct (outcome (Client.doFetch E env ev endpoint p sig)) as [data|t]
      eqn:Ho; [|discriminate].
    injection H as <-. apply doFetch_resolves in Ho.
    destruct Ho as (r & -> & Hok & ->). exists r.
    repeat split; auto. apply normalize_articles_is_array. }
  intros [H|H].
  - rewrite getTopHeadlines_outcome in H. eapply Hd, H.
  - destruct (searchQuery E filters) as [|c q] eqn:Hq.
    + rewrite (searchEverything_empty E env ev filters sig Hq) in H.
      discriminate.
    + rewrite searchEverything_outcome in H by (rewrite Hq; discriminate).
      eapply Hd, H.
Qed.

Lemma settle_success r :
  res_ok r = true ->
  is_string (opt_get (parsed_body r) (lit "status")) (lit "error") = false ->
  settle E r = Fulfilled (parsed_body r).
Proof. unfold settle. intros -> ->. reflexivity. Qed.

(** And a successful response does resolve, with the normalized payload. *)
Lemma client_success_resolves env filters sig r :
  res_ok r = true ->
  is_string (opt_get (parsed_body r) (lit "status")) (lit "error") = false ->
  (sent (Client.getTopHeadlines E env (Responds r) filters sig) <> [] ->
   outcome (Client.getTopHeadlines E env (Responds r) filters sig)
   = Fulfilled (Client.normalize (parsed_body r)))
  /\ (sent (Client.searchEverything E env (Responds r) filters sig) <> [] ->
      outcome (Client.searchEverything E env (Responds r) filters sig)
      = Fulfilled (Client.normalize (parsed_body r))).
Proof.
  intros Hok Hst. split; intro H.
  - rewrite getTopHeadlines_sent in H.
    rewrite getTopHeadlines_outcome, (doFetch_outcome_after_request E _ _ _ _ _ H).
    cbn [after_request]. rewrite (settle_success r Hok Hst). reflexivity.
  - pose proof (searchEverything_sent_query E _ _ _ _ H) as Hq.
    rewrite searchEverything_sent in H by exact Hq.
    rewrite searchEverything_outcome by exact Hq.
    rewrite (doFetch_outcome_after_request E _ _ _ _ _ H).
    cbn [after_request]. rewrite (settle_success r Hok Hst). reflexivity.
Qed.

End ClientResults.

Section ClientRequests.

Variable E : Engine.

Import ClientSpec.

(** The key read from the environment, when it passes the check. *)
Lemma configured_key env :
  truthy (apiKey (Client.getNewsApiConfig E env)) = true ->
  exists key,
    REACT_APP_NEWS_API_KEY env = Some key /\ key <> []
    /\ apiKey (Client.getNewsApiConfig E env) = VStr key.
Proof.
  unfold Client.getNewsApiConfig. cbn [apiKey].
  destruct (REACT_APP_NEWS_API_KEY env) as [[|c k]|]; cbn;
    try discriminate.
  intros _. exists (c :: k). repeat split. discriminate.
Qed.

Lemma missing_key env :
  REACT_APP_NEWS_API_KEY env = None \/ REACT_APP_NEWS_API_KEY env = Some [] ->
  truthy (apiKey (Client.getNewsApiConfig E env)) = false.
Proof.
  unfold Client.getNewsApiConfig. cbn [apiKey].
  intros [-> | ->]; reflexivity.
Qed.

(** The requests of the two operations. *)
Lemma client_headline_requests env ev filters sig r :
  In r (sent (Client.getTopHeadlines E env ev filters sig)) ->
  r = request_of E env (lit "top-headlines") (headlineParams E filters)
  /\ has_http_scheme (base (Client.getNewsApiConfig E env)) = true
  /\ (proxy_mode E env = false ->
      truthy (apiKey (Client.getNewsApiConfig E env)) = true).
Proof.
  rewrite getTopHeadlines_sent. intro H. apply doFetch_sent in H. tauto.
Qed.

Lemma client_search_requests env ev filters sig r :
  In r (sent (Client.searchEverything E env ev filters sig)) ->
  r = request_of E env (lit "search") (searchParams E filters)
  /\ has_http_scheme (base (Client.getNewsApiConfig E env)) = true
  /\ (proxy_mode E env = false ->
      truthy (apiKey (Client.getNewsApiConfig E env)) = true).
Proof.
  intro H.
  assert (Hq : searchQuery E filters <> []).
  { apply (searchEverything_sent_query E env ev filters sig).
    intro Hs. rewrite Hs in H. destruct H. }
  rewrite searchEverything_sent in H by exact Hq.
  apply doFetch_sent in H. tauto.
Qed.

Lemma client_requests env ev filters sig r :
  In r (sent (Client.getTopHeadlines E env ev filters sig))
  \/ In r (sent (Client.searchEverything E env ev filters sig)) ->
  exists endpoint p,
    r = request_of E env endpoint p
    /\ has_http_scheme (base (Client.getNewsApiConfig E env)) = true
    /\ (proxy_mode E env = false ->
        truthy (apiKey (Client.getNewsApiConfig E env)) = true).
Proof.
  intros [H|H];
    [apply client_headline_requests in H|apply client_search_requests in H];
    eauto.
Qed.

(** A config error of doFetch reaches the caller of either operation. *)
Lemma doFetch_without_key env ev endpoint p sig :
  proxy_mode E env = false ->
  truthy (apiKey (Client.getNewsApiConfig E env)) = false ->
  sent (Client.doFetch E env ev endpoint p sig) = []
  /\ exists e,
       outcome (Client.doFetch E env ev endpoint p sig)
       = Rejected (ThrownError e)
       /\ err_code e = VStr (lit "CONFIG").
Proof.
  intros Hp Hk. rewrite doFetch_run, Hp, Hk.
  destruct (has_http_scheme _); cbn [negb andb]; split; try reflexivity.
  - exists Client.missingKeyError. split; reflexivity.
  - exists Client.invalidBaseError. split; reflexivity.
Qed.

End ClientRequests.

(** ** The properties of the specification *)

(** C2, as amended. In direct mode (isProxyBase is false: the base references
    the upstream host) with no API key configured, every call to
    getTopHeadlines, and every call to searchEverything whose query is not
    empty after trimming, rejects with an error whose code is CONFIG and sends
    no request. A searchEverything call with an empty query is rejected
    before the configuration is read, with code VALIDATION, and sends no
    request either. *)
Theorem direct_mode_without_key_is_a_config_error E env ev filters sig :
  ClientSpec.proxy_mode E env = false ->
  REACT_APP_NEWS_API_KEY env = None \/ REACT_APP_NEWS_API_KEY env = Some [] ->
  (rejects_with_code (Client.getTopHeadlines E env ev filters sig) (lit "CONFIG")
   /\ sent (Client.getTopHeadlines E env ev filters sig) = [])
  /\ (searchQuery E filters <> [] ->
      rejects_with_code (Client.searchEverything E env ev filters sig)
        (lit "CONFIG")
      /\ sent (Client.searchEverything E env ev filters sig) = [])
  /\ (searchQuery E filters = [] ->
      rejects_with_code (Client.searchEverything E env ev filters sig)
        (lit "VALIDATION")
      /\ sent (Client.searchEverything E env ev filters sig) = []).
Proof.
  intros Hp Hk. apply (missing_key E) in Hk.
  assert (Hd := fun endpoint p =>
                  doFetch_without_key E env ev endpoint p sig Hp Hk).
  unfold rejects_with_code.
  split; [|split].
  - rewrite getTopHeadlines_sent, getTopHeadlines_outcome.
    destruct (Hd (lit "top-headlines") (headlineParams E filters))
      as (Hs & e & -> & Hc).
    split; [exists e; split; [reflexivity|exact Hc]|exact Hs].
  - intro Hq.
    rewrite searchEverything_sent, searchEverything_outcome by exact Hq.
    destruct (Hd (lit "search") (searchParams E filters))
      as (Hs & e & -> & Hc).
    split; [exists e; split; [reflexivity|exact Hc]|exact Hs].
  - intro Hq. rewrite (searchEverything_empty E env ev filters sig Hq).
    split; [|reflexivity].
    exists validationError. split; reflexivity.
Qed.

(** A run of C2: nothing configured, so the base is the upstream default. *)
Lemma direct_mode_without_key_witness :
  ClientSpec.proxy_mode Sample.R Sample.bare = false
  /\ (REACT_APP_NEWS_API_KEY Sample.bare = None
      \/ REACT_APP_NEWS_API_KEY Sample.bare = Some [])
  /\ rejects_with_code
       (Client.getTopHeadlines Sample.R Sample.bare
          (Responds Sample.two_articles) [] None)
       (lit "CONFIG")
  /\ sent (Client.getTopHeadlines Sample.R Sample.bare
             (Responds Sample.two_articles) [] None) = [].
Proof.
  split; [reflexivity|]. split; [left; reflexivity|].
  apply (direct_mode_without_key_is_a_config_error Sample.R Sample.bare
           (Responds Sample.two_articles) [] None).
  - reflexivity.
  - left. reflexivity.
Defined.

(** C2 as stated fails: in direct mode with no key, searchEverything with an
    empty query rejects with code VALIDATION, not CONFIG. *)
Lemma search_without_query_is_not_a_config_error :
  ClientSpec.proxy_mode Sample.R Sample.bare = false
  /\ REACT_APP_NEWS_API_KEY Sample.bare = None
  /\ outcome (Client.searchEverything Sample.R Sample.bare
                (Responds Sample.two_articles) [(lit "q", VStr [])] None)
     = Rejected (ThrownError validationError)
  /\ err_code validationError = VStr (lit "VALIDATION")
  /\ ~ rejects_with_code
         (Client.searchEverything Sample.R Sample.bare
            (Responds Sample.two_articles) [(lit "q", VStr [])] None)
         (lit "CONFIG").
Proof.
  repeat split.
  intros (e & He & Hc). vm_compute in He. injection He as <-.
  vm_compute in Hc. discriminate.
Qed.

(** C4. When the query is empty once coerced and trimmed
    (String(q || '').trim() is ''), searchEverything rejects with an error
    whose code is VALIDATION and sends no request, whatever the environment,
    the network and the signal: the configuration is never consulted. It
    holds in both revisions. *)
Theorem empty_query_is_rejected_before_any_io E filters :
  trim (ToString E (js_or (lookup (lit "q") filters) (VStr []))) = [] ->
  forall env ev sig,
    Client.searchEverything E env ev filters sig
    = ([], Rejected (ThrownError validationError))
    /\ Legacy.searchEverything E env ev filters sig
       = ([], Rejected (ThrownError validationError))
    /\ rejects_with_code (Client.searchEverything E env ev filters sig)
         (lit "VALIDATION")
    /\ rejects_with_code (Legacy.searchEverything E env ev filters sig)
         (lit "VALIDATION")
    /\ sent (Client.searchEverything E env ev filters sig) = []
    /\ sent (Legacy.searchEverything E env ev filters sig) = [].
Proof.
  intros Hq env ev sig.
  assert (Hc : Client.searchEverything E env ev filters sig
               = ([], Rejected (ThrownError validationError))).
  { unfold Client.searchEverything, searchQuery. rewrite Hq. reflexivity. }
  assert (Hl : Legacy.searchEverything E env ev filters sig
               = ([], Rejected (ThrownError validationError))).
  { unfold Legacy.searchEverything, searchQuery. rewrite Hq. reflexivity. }
  unfold rejects_with_code. rewrite Hc, Hl.
  repeat split; exists validationError; split; reflexivity.
Qed.

(** A run of C4: a query of blanks, in direct mode with a key. *)
Lemma empty_query_witness :
  trim (ToString Sample.R
          (js_or (lookup (lit "q") [(lit "q", VStr (lit "   "))]) (VStr [])))
  = []
  /\ Client.searchEverything Sample.R Sample.direct
       (Responds Sample.two_articles) [(lit "q", VStr (lit "   "))] None
     = ([], Rejected (ThrownError validationError)).
Proof.
  split; [reflexivity|].
  apply (empty_query_is_rejected_before_any_io Sample.R
           [(lit "q", VStr (lit "   "))]).
  reflexivity.
Defined.

(** In the proxy-aware revision every request either operation sends is a
    GET. In direct mode it carries the configured API key in the X-Api-Key
    header, and nothing else; in proxy mode it carries no header at all. *)
Lemma client_credential_header E env ev filters sig r :
  In r (sent (Client.getTopHeadlines E env ev filters sig))
  \/ In r (sent (Client.searchEverything E env ev filters sig)) ->
  req_method r = lit "GET"
  /\ (ClientSpec.proxy_mode E env = false ->
      exists key,
        REACT_APP_NEWS_API_KEY env = Some key /\ key <> []
        /\ req_headers r = [(lit "X-Api-Key", key)])
  /\ (ClientSpec.proxy_mode E env = true -> req_headers r = []).
Proof.
  intro H. apply client_requests in H.
  destruct H as (endpoint & p & -> & _ & Hkey).
  split; [reflexivity|]. split.
  - intro Hp. destruct (configured_key E env (Hkey Hp)) as (key & Hk & Hne & Ha).
    exists key. repeat split; try assumption.
    unfold ClientSpec.request_of. cbn [req_headers]. rewrite Hp, Ha.
    reflexivity.
  - intro Hp. unfold ClientSpec.request_of. cbn [req_headers]. rewrite Hp.
    reflexivity.
Qed.

(** In the revision without modes every request is a GET with the key in
    X-Api-Key. *)
Lemma legacy_credential_header E env ev filters sig r :
  In r (sent (Legacy.getTopHeadlines E env ev filters sig))
  \/ In r (sent (Legacy.searchEverything E env ev filters sig)) ->
  req_method r = lit "GET"
  /\ req_headers r
     = [(lit "X-Api-Key", ToString E (apiKey (Legacy.getNewsApiConfig E env)))].
Proof.
  intro H. split; [|apply (legacy_requests_carry_the_key E env ev filters sig r H)].
  destruct H as [H|H];
    [apply legacy_getTopHeadlines_sent in H
    |apply legacy_searchEverything_sent in H];
    subst r; reflexivity.
Qed.

(** C7 holds in the proxy-aware revision and fails in the revision stored as
    services/newsApi.js. In the proxy-aware revision every request is a GET
    that carries the configured key in X-Api-Key, and nothing else, in
    direct mode, and no header at all in proxy mode. The revision stored as
    services/newsApi.js has no modes: every request it sends is a GET with
    the key in X-Api-Key, whatever the base. With the base
    http://localhost:3010/api/news/, which does not mention newsapi.org, and
    a key in the environment, both of its operations send the key to the
    proxy, where the proxy-aware revision sends no header. *)
Theorem legacy_sends_the_key_to_a_proxy :
  (forall E env ev filters sig r,
      In r (sent (Client.getTopHeadlines E env ev filters sig))
      \/ In r (sent (Client.searchEverything E env ev filters sig)) ->
      req_method r = lit "GET"
      /\ (ClientSpec.proxy_mode E env = false ->
          exists key,
            REACT_APP_NEWS_API_KEY env = Some key /\ key <> []
            /\ req_headers r = [(lit "X-Api-Key", key)])
      /\ (ClientSpec.proxy_mode E env = true -> req_headers r = []))
  /\ (forall E env ev filters sig r,
         In r (sent (Legacy.getTopHeadlines E env ev filters sig))
         \/ In r (sent (Legacy.searchEverything E env ev filters sig)) ->
         req_method r = lit "GET"
         /\ req_headers r
            = [(lit "X-Api-Key",
                ToString E (apiKey (Legacy.getNewsApiConfig E env)))])
  /\ base (Legacy.getNewsApiConfig Sample.R Sample.proxied_with_key)
     = lit "http://localhost:3010/api/news"
  /\ ~ references_host (lit "http://localhost:3010/api/news")
  /\ sent (Legacy.getTopHeadlines Sample.R Sample.proxied_with_key
             (Responds Sample.two_articles) [] None)
     = [mkRequest
          (lit "http://localhost:3010/api/news/top-headlines?country=us&pageSize=10&page=1")
          (lit "GET") [(lit "X-Api-Key", lit "SECRET123")]]
  /\ map req_headers
       (sent (Legacy.searchEverything Sample.R Sample.proxied_with_key
                (Responds Sample.two_articles)
                [(lit "q", VStr (lit "rocq"))] None))
     = [[(lit "X-Api-Key", lit "SECRET123")]]
  /\ map req_headers
       (sent (Client.getTopHeadlines Sample.R Sample.proxied_with_key
                (Responds Sample.two_articles) [] None))
     = [[]]
  /\ map req_headers
       (sent (Client.searchEverything Sample.R Sample.proxied_with_key
                (Responds Sample.two_articles)
                [(lit "q", VStr (lit "rocq"))] None))
     = [[]].
Proof.
  split; [exact client_credential_header|].
  split; [exact legacy_credential_header|].
  split; [reflexivity|].
  split; [apply (isProxyBase_true Sample.R); reflexivity|].
  repeat split.
Qed.



Section HttpFailures.

Variable E : Engine.

Import ClientSpec.

Lemma settle_failure r :
  http_failure r ->
  settle E r
  = Rejected
      (ThrownError
         (httpError E (Client.mapApiError (res_status r) (parsed_body r)) r
            (parsed_body r))).
Proof.
  unfold http_failure, settle. intros [-> | ->]; [reflexivity|].
  rewrite orb_true_r. reflexivity.
Qed.

Lemma httpError_is_classified r {A} :
  classified_failure E r (A:=A)
    (Rejected
       (ThrownError
          (httpError E (Client.mapApiError (res_status r) (parsed_body r)) r
             (parsed_body r)))).
Proof.
  unfold classified_failure.
  eexists. exists (ToString E (Client.mapApiError (res_status r) (parsed_body r))).
  split; [reflexivity|]. split; [reflexivity|]. split; [reflexivity|].
  split; [reflexivity|].
  unfold Client.mapApiError. fold (payload_message (parsed_body r)).
  split; [|split; [|split]].
  - intros ->. split; reflexivity.
  - intro H. destruct (res_status r =? 429) eqn:H429; [lia|].
    destruct (res_status r >=? 500) eqn:H500; [reflexivity|lia].
  - intro H. destruct (res_status r =? 429) eqn:H429; [lia|].
    destruct (res_status r >=? 500) eqn:H500; [lia|].
    destruct ((res_status r =? 401) || (res_status r =? 403)) eqn:H40;
      [reflexivity|].
    apply orb_false_iff in H40. lia.
  - intros H1 H2 H3 H4.
    destruct (res_status r =? 429) eqn:H429; [lia|].
    destruct (res_status r >=? 500) eqn:H500; [lia|].
    destruct ((res_status r =? 401) || (res_status r =? 403)) eqn:H40;
      [|reflexivity].
    apply orb_true_iff in H40. lia.
Qed.

End HttpFailures.

(** C9. When a response comes back with a status outside 200-299, or with a
    payload whose status field is 'error', the call rejects with an error
    that carries the response status and the raw payload (null when the body
    was not JSON), and whose message is: the rate-limit text, which tells to
    wait, for 429; the service-unavailable text for 500 and above; the
    unauthorized text for 401 and 403; and otherwise the payload's message,
    else its error field, else the generic fallback. *)
Theorem http_failure_is_classified E env filters sig r :
  http_failure r ->
  (sent (Client.getTopHeadlines E env (Responds r) filters sig) <> [] ->
   classified_failure E r
     (outcome (Client.getTopHeadlines E env (Responds r) filters sig)))
  /\ (sent (Client.searchEverything E env (Responds r) filters sig) <> [] ->
      classified_failure E r
        (outcome (Client.searchEverything E env (Responds r) filters sig))).
Proof.
  intro Hf. split; intro H.
  - rewrite getTopHeadlines_sent in H.
    rewrite getTopHeadlines_outcome,
      (doFetch_outcome_after_request E _ _ _ _ _ H).
    cbn [ClientSpec.after_request map_completion].
    rewrite (settle_failure E r Hf). apply httpError_is_classified.
  - pose proof (searchEverything_sent_query E _ _ _ _ H) as Hq.
    rewrite searchEverything_sent in H by exact Hq.
    rewrite searchEverything_outcome by exact Hq.
    rewrite (doFetch_outcome_after_request E _ _ _ _ _ H).
    cbn [ClientSpec.after_request map_completion].
    rewrite (settle_failure E r Hf). apply httpError_is_classified.
Qed.

(** A run of C9: a 429 in direct mode. *)
Lemma http_failure_witness :
  http_failure Sample.rate_limited
  /\ sent (Client.getTopHeadlines Sample.R Sample.direct
             (Responds Sample.rate_limited) [] None) <> []
  /\ classified_failure Sample.R Sample.rate_limited
       (outcome (Client.getTopHeadlines Sample.R Sample.direct
                   (Responds Sample.rate_limited) [] None)).
Proof.
  split; [left; reflexivity|]. split; [discriminate|].
  apply (http_failure_is_classified Sample.R Sample.direct [] None
           Sample.rate_limited).
  - left. reflexivity.
  - discriminate.
Defined.

Section TransportFailures.

Variable E : Engine.

Import ClientSpec.


Lemma toUserFacingError_network t url mode :
  isNetworkOrCORSError E t = true ->
  Client.toUserFacingError E t url mode = Client.networkError url mode.
Proof. unfold Client.toUserFacingError. intros ->. reflexivity. Qed.




End TransportFailures.






Section KeyIndependence.

Variable E : Engine.

Import ClientSpec.

Lemma with_key_base env key :
  base (Client.getNewsApiConfig E (with_key env key))
  = base (Client.getNewsApiConfig E env).
Proof. reflexivity. Qed.

Lemma with_key_truthy env key :
  key <> [] ->
  truthy (apiKey (Client.getNewsApiConfig E (with_key env key))) = true.
Proof. destruct key; [congruence|reflexivity]. Qed.

End KeyIndependence.

Section MessageSources.

Variable E : Engine.

Import ClientSpec.



End MessageSources.




Section PagingOnTheWire.

Variable E : Engine.

(** Every request of either operation, in either revision, carries the
    clamped page size and page number in its query string. *)
Lemma requests_carry_paging env ev filters sig r :
  In r (sent (Client.getTopHeadlines E env ev filters sig))
  \/ In r (sent (Client.searchEverything E env ev filters sig))
  \/ In r (sent (Legacy.getTopHeadlines E env ev filters sig))
  \/ In r (sent (Legacy.searchEverything E env ev filters sig)) ->
  carries_paging E r (safePageSize E (pageSize_input filters))
    (safePage E (page_input filters)).
Proof.
  unfold carries_paging.
  intros [H|[H|[H|H]]].
  - apply client_headline_requests in H. destruct H as (-> & _).
    eexists _, _, (queryPairs E (headlineParams E filters)).
    split; [reflexivity|]. apply headline_query_paging.
  - apply client_search_requests in H. destruct H as (-> & _).
    eexists _, _, (queryPairs E (searchParams E filters)).
    split; [reflexivity|]. apply search_query_paging.
  - apply legacy_getTopHeadlines_sent in H. subst r.
    eexists _, _, (queryPairs E (headlineParams E filters)).
    split; [reflexivity|]. apply headline_query_paging.
  - apply legacy_searchEverything_sent in H. subst r.
    eexists _, _, (queryPairs E (searchParams E filters)).
    split; [reflexivity|]. apply search_query_paging.
Qed.

End PagingOnTheWire.




(** The coercions the clamp turns into 1 are those that are not zero and
    at most 1. *)
Lemma clamp_page_size_one n :
  clamp_page_size n = num 1 <-> clamps_to_one n.
Proof.
  destruct n as [| | |q]; cbn; try (split; [discriminate|tauto]);
    [tauto|].
  destruct (Qeq_bool q 0) eqn:Hz.
  - apply Qeq_bool_iff in Hz. split; [discriminate|tauto].
  - assert (Hnz : ~ (q == 0)%Q)
      by (intro H; apply Qeq_bool_iff in H; congruence).
    destruct (Qle_bool q (inject_Z 1)) eqn:H1.
    + apply Qle_bool_iff in H1. tauto.
    + assert (Hgt : ~ (q <= 1)%Q)
        by (intro H; apply Qle_bool_iff in H;
            change (inject_Z 1) with 1%Q in H1; congruence).
      destruct (Qle_bool q (inject_Z 100)).
      * split; [|tauto]. intros [= ->]. exfalso. apply Hgt. discriminate.
      * split; [discriminate|tauto].
Qed.

Section RequestsGoOut.

Variable E : Engine.

(** With a sound configuration and a signal that is not aborted, each
    operation of the proxy-aware revision asks fetch for its one request. *)
Lemma client_request_goes_out env ev filters sig :
  has_http_scheme (base (Client.getNewsApiConfig E env)) = true ->
  ClientSpec.proxy_mode E env = true
  \/ truthy (apiKey (Client.getNewsApiConfig E env)) = true ->
  linkSignal sig = false ->
  sent (Client.getTopHeadlines E env ev filters sig)
  = [ClientSpec.request_of E env (lit "top-headlines")
       (headlineParams E filters)]
  /\ (searchQuery E filters <> [] ->
      sent (Client.searchEverything E env ev filters sig)
      = [ClientSpec.request_of E env (lit "search") (searchParams E filters)]).
Proof.
  intros Hs Hk Hl.
  assert (Hd : forall endpoint p,
             sent (Client.doFetch E env ev endpoint p sig)
             = [ClientSpec.request_of E env endpoint p]).
  { intros endpoint p. rewrite doFetch_run, Hs, Hl. cbn [negb].
    destruct Hk as [-> | ->]; [|rewrite andb_false_r]; reflexivity. }
  split.
  - rewrite getTopHeadlines_sent. apply Hd.
  - intro Hq. rewrite searchEverything_sent by exact Hq. apply Hd.
Qed.

Lemma sent_bind_quiet {A B} (m : async A) (k : A -> async B) :
  (forall a, sent (k a) = []) -> sent (bind m k) = sent m.
Proof.
  intro Hk. destruct m as [log [a|t]]; unfold bind, sent; simpl;
    [|reflexivity].
  specialize (Hk a). unfold sent in Hk. destruct (k a) as [log' c].
  simpl in *. subst log'. apply app_nil_r.
Qed.

(** So does each operation of the revision without modes, which needs the
    key whatever the base. *)
Lemma legacy_request_goes_out env ev filters sig :
  truthy (apiKey (Legacy.getNewsApiConfig E env)) = true ->
  has_http_scheme (base (Legacy.getNewsApiConfig E env)) = true ->
  linkSignal sig = false ->
  sent (Legacy.getTopHeadlines E env ev filters sig)
  = [LegacySpec.request_of E env (lit "top-headlines")
       (headlineParams E filters)]
  /\ (searchQuery E filters <> [] ->
      sent (Legacy.searchEverything E env ev filters sig)
      = [LegacySpec.request_of E env (lit "everything")
           (searchParams E filters)]).
Proof.
  intros Hk Hs Hl.
  assert (Hd : forall endpoint p,
             sent (Legacy.doFetch E env ev endpoint p sig)
             = [LegacySpec.request_of E env endpoint p]).
  { intros endpoint p. rewrite legacy_doFetch_run, Hk, Hs, Hl. reflexivity. }
  split.
  - unfold Legacy.getTopHeadlines.
    rewrite sent_bind_quiet by apply legacy_normalize_sends_nothing.
    apply Hd.
  - intro Hq. unfold Legacy.searchEverything.
    destruct (searchQuery E filters) as [|c q]; [congruence|].
    cbn [truthy negb].
    rewrite sent_bind_quiet by apply legacy_normalize_sends_nothing.
    apply Hd.
Qed.

End RequestsGoOut.

(** C10, as amended. A pageSize whose numeric coercion is 0 or NaN (the
    number 0, the empty string, null, a string that is no numeric literal)
    goes out as the default 10, and so not as 1. The inputs that go out as 1
    are those whose coercion is not zero and at most 1: every strictly
    negative one, and also the positive ones up to 1, such as 0.5; among the
    integers other than 1 they are the strictly negative ones. A page whose
    coercion is 0 or NaN goes out as 1. It holds for both operations and in
    both revisions: every request carries these values, and with a sound
    configuration and a signal that is not aborted each operation asks fetch
    for exactly one request, which carries them. *)
Theorem zero_or_NaN_page_size_takes_the_default E filters :
  (is_zero_or_NaN (ToNumber E (pageSize_input filters)) ->
   safePageSize E (pageSize_input filters) = num 10
   /\ safePageSize E (pageSize_input filters) <> num 1)
  /\ (is_negative (ToNumber E (pageSize_input filters)) ->
      safePageSize E (pageSize_input filters) = num 1)
  /\ (safePageSize E (pageSize_input filters) = num 1 <->
      clamps_to_one (ToNumber E (pageSize_input filters)))
  /\ (is_zero_or_NaN (ToNumber E (page_input filters)) ->
      safePage E (page_input filters) = num 1)
  /\ (forall z,
         ToNumber E (pageSize_input filters) = num z ->
         (safePageSize E (pageSize_input filters) = num 1 /\ z <> 1 <-> z < 0))
  /\ (is_zero_or_NaN (ToNumber E (VNum (num 0)))
      /\ is_zero_or_NaN (ToNumber E (VStr []))
      /\ is_zero_or_NaN (ToNumber E VNull)
      /\ forall s,
           trim s <> [] -> parseNumericLiteral E (trim s) = NaN ->
           is_zero_or_NaN (ToNumber E (VStr s)))
  /\ (forall env ev sig r,
         In r (sent (Client.getTopHeadlines E env ev filters sig))
         \/ In r (sent (Client.searchEverything E env ev filters sig))
         \/ In r (sent (Legacy.getTopHeadlines E env ev filters sig))
         \/ In r (sent (Legacy.searchEverything E env ev filters sig)) ->
         carries_paging E r (safePageSize E (pageSize_input filters))
           (safePage E (page_input filters)))
  /\ (forall env ev sig,
         has_http_scheme (base (Client.getNewsApiConfig E env)) = true ->
         ClientSpec.proxy_mode E env = true
         \/ truthy (apiKey (Client.getNewsApiConfig E env)) = true ->
         linkSignal sig = false ->
         (exists r,
             sent (Client.getTopHeadlines E env ev filters sig) = [r]
             /\ carries_paging E r (safePageSize E (pageSize_input filters))
                  (safePage E (page_input filters)))
         /\ (searchQuery E filters <> [] ->
             exists r,
               sent (Client.searchEverything E env ev filters sig) = [r]
               /\ carries_paging E r
                    (safePageSize E (pageSize_input filters))
                    (safePage E (page_input filters))))
  /\ (forall env ev sig,
         truthy (apiKey (Legacy.getNewsApiConfig E env)) = true ->
         has_http_scheme (base (Legacy.getNewsApiConfig E env)) = true ->
         linkSignal sig = false ->
         (exists r,
             sent (Legacy.getTopHeadlines E env ev filters sig) = [r]
             /\ carries_paging E r (safePageSize E (pageSize_input filters))
                  (safePage E (page_input filters)))
         /\ (searchQuery E filters <> [] ->
             exists r,
               sent (Legacy.searchEverything E env ev filters sig) = [r]
               /\ carries_paging E r
                    (safePageSize E (pageSize_input filters))
                    (safePage E (page_input filters)))).
Proof.
  split; [|split; [|split; [|split; [|split; [|split; [|split; [|split]]]]]]].
  - intro H. rewrite safePageSize_cases.
    rewrite (clamp_page_size_zero_or_NaN _ H). split; [reflexivity|discriminate].
  - intro H. rewrite safePageSize_cases. apply clamp_page_size_negative, H.
  - rewrite safePageSize_cases. apply clamp_page_size_one.
  - intro H. rewrite safePage_cases. apply clamp_page_zero_or_NaN, H.
  - intros z Hz. rewrite safePageSize_cases, Hz.
    apply raised_to_one_iff_negative.
  - split; [reflexivity|]. split; [reflexivity|]. split; [reflexivity|].
    intros s Hs Hp. cbn [ToNumber]. unfold StringToNumber.
    destruct (trim s); [congruence|]. rewrite Hp. exact I.
  - intros env ev sig r H. eapply requests_carry_paging. exact H.
  - intros env ev sig Hs Hk Hl.
    destruct (client_request_goes_out E env ev filters sig Hs Hk Hl)
      as [Ht Hq].
    split.
    + eexists. split; [exact Ht|].
      apply (requests_carry_paging E env ev filters sig).
      left. rewrite Ht. left. reflexivity.
    + intro Hne. eexists. split; [exact (Hq Hne)|].
      apply (requests_carry_paging E env ev filters sig).
      right. left. rewrite (Hq Hne). left. reflexivity.
  - intros env ev sig Hk Hs Hl.
    destruct (legacy_request_goes_out E env ev filters sig Hk Hs Hl)
      as [Ht Hq].
    split.
    + eexists. split; [exact Ht|].
      apply (requests_carry_paging E env ev filters sig).
      right. right. left. rewrite Ht. left. reflexivity.
    + intro Hne. eexists. split; [exact (Hq Hne)|].
      apply (requests_carry_paging E env ev filters sig).
      right. right. right. rewrite (Hq Hne). left. reflexivity.
Qed.

(** A run of C10: an empty string as page size. *)
Lemma zero_or_NaN_page_size_witness :
  is_zero_or_NaN
    (ToNumber Sample.R (pageSize_input [(lit "pageSize", VStr [])]))
  /\ safePageSize Sample.R (pageSize_input [(lit "pageSize", VStr [])])
     = num 10
  /\ safePageSize Sample.R (pageSize_input [(lit "pageSize", VStr [])])
     <> num 1.
Proof.
  split; [reflexivity|].
  apply (zero_or_NaN_page_size_takes_the_default Sample.R
           [(lit "pageSize", VStr [])]).
  reflexivity.
Defined.

(** C10 as stated fails: strictly negative inputs are not the only ones
    raised to 1. A page size of 0.5 is neither negative nor zero, and it is
    sent as 1, in both revisions. *)
Lemma half_page_size_is_sent_as_one :
  ToNumber Sample.R (pageSize_input Inputs.half_page) = Fin (1 # 2)
  /\ ~ is_negative (ToNumber Sample.R (pageSize_input Inputs.half_page))
  /\ ~ is_zero_or_NaN (ToNumber Sample.R (pageSize_input Inputs.half_page))
  /\ safePageSize Sample.R (pageSize_input Inputs.half_page) = num 1
  /\ map req_url
       (sent (Client.getTopHeadlines Sample.R Sample.direct
                (Responds Sample.two_articles) Inputs.half_page None))
     = [lit "https://newsapi.org/v2/top-headlines?country=us&pageSize=1&page=1"]
  /\ map req_url
       (sent (Legacy.getTopHeadlines Sample.R Sample.direct
                (Responds Sample.two_articles) Inputs.half_page None))
     = [lit "https://newsapi.org/v2/top-headlines?country=us&pageSize=1&page=1"].
Proof.
  split; [reflexivity|]. split; [discriminate|]. split; [discriminate|].
  repeat split.
Qed.

(** In the proxy-aware revision a successful response resolves with the
    normalized payload, whatever the payload is: its articles are the
    payload's when these are an array and the empty array otherwise, and its
    totalResults are the payload's or 0. *)
Lemma client_normalizes_every_payload E env filters sig r :
  res_ok r = true ->
  is_string (opt_get (parsed_body r) (lit "status")) (lit "error") = false ->
  forall run,
    run = Client.getTopHeadlines E env (Responds r) filters sig
    \/ run = Client.searchEverything E env (Responds r) filters sig ->
    sent run <> [] ->
    exists res,
      outcome run = Fulfilled res
      /\ totalResults res
         = js_or (opt_get (parsed_body r) (lit "totalResults")) (VNum (num 0))
      /\ articles res
         = match opt_get (parsed_body r) (lit "articles") with
           | VArr items => VArr items
           | _ => VArr []
           end.
Proof.
  intros Hok Hst run Hrun Hsent.
  destruct (client_success_resolves E env filters sig r Hok Hst) as [Ht Hs].
  exists (Client.normalize (parsed_body r)).
  split; [|split; [apply normalize_totalResults|apply normalize_articles]].
  destruct Hrun as [-> | ->]; auto.
Qed.

(** C1 fails in the revision stored as services/newsApi.js. A 200 response
    whose body is not JSON leaves data null; doFetch returns it, and
    getTopHeadlines and searchEverything read data.totalResults, which throws:
    the call rejects with a TypeError instead of resolving with an empty
    article list. The proxy-aware revision resolves on the same input. *)
Theorem legacy_rejects_a_body_that_is_not_json :
  res_ok Sample.not_json = true
  /\ parsed_body Sample.not_json = VNull
  /\ outcome (Legacy.doFetch Sample.R Sample.direct (Responds Sample.not_json)
                (lit "top-headlines") (headlineParams Sample.R []) None)
     = Fulfilled VNull
  /\ outcome (Legacy.getTopHeadlines Sample.R Sample.direct
                (Responds Sample.not_json) [] None)
     = Rejected (ThrownError (NullReadError Sample.R (lit "totalResults")))
  /\ outcome (Legacy.searchEverything Sample.R Sample.direct
                (Responds Sample.not_json) [(lit "q", VStr (lit "rocq"))] None)
     = Rejected (ThrownError (NullReadError Sample.R (lit "totalResults")))
  /\ outcome (Client.getTopHeadlines Sample.R Sample.direct
                (Responds Sample.not_json) [] None)
     = Fulfilled (mkResult (VNum (num 0)) (VArr [])).
Proof. repeat split. Qed.

(** * Further properties of the client *)

(** ** The configuration *)

Lemma drop_while_split {A} (p : A -> bool) (l : list A) :
  exists l1,
    l = l1 ++ drop_while p l
    /\ Forall (fun x => p x = true) l1
    /\ match drop_while p l with
       | [] => True
       | x :: _ => p x = false
       end.
Proof.
  induction l as [|x l (l1 & Heq & Hall & Hhd)]; simpl.
  - exists []. repeat split. constructor.
  - destruct (p x) eqn:Hp.
    + exists (x :: l1). simpl. rewrite <- Heq. repeat split; auto.
    + exists []. repeat split; auto.
Qed.

Lemma drop_while_stable {A} (p : A -> bool) (l : list A) :
  match l with [] => True | x :: _ => p x = false end ->
  drop_while p l = l.
Proof. destruct l as [|x l]; simpl; [reflexivity|]. intros ->. reflexivity. Qed.

Lemma strip_slashes_split s :
  exists tail,
    s = strip_slashes s ++ tail /\ all_slashes tail
    /\ ~ ends_with_slash (strip_slashes s)
    /\ strip_slashes (strip_slashes s) = strip_slashes s.
Proof.
  unfold strip_slashes.
  destruct (drop_while_split (N.eqb 47) (rev s)) as (l1 & Heq & Hall & Hhd).
  exists (rev l1). split; [|split; [|split]].
  - rewrite <- rev_app_distr, <- Heq, rev_involutive. reflexivity.
  - unfold all_slashes. apply Forall_rev.
    eapply Forall_impl; [|exact Hall].
    intros c Hc. apply N.eqb_eq in Hc. congruence.
  - intros (s' & Hs').
    apply (f_equal (@rev _)) in Hs'.
    rewrite rev_involutive, rev_app_distr in Hs'. simpl in Hs'.
    rewrite Hs' in Hhd. discriminate.
  - rewrite rev_involutive, drop_while_stable; [reflexivity|exact Hhd].
Qed.

(** X1. stripTrailingSlashes takes off exactly the run of slashes that ends
    the string: the input is the result followed by slashes only, the result
    does not end in a slash, and stripping again changes nothing. An absent
    value gives the empty string. *)
Theorem stripTrailingSlashes_takes_the_final_slashes E s :
  (exists tail,
      s = Client.stripTrailingSlashes E (VStr s) ++ tail
      /\ all_slashes tail)
  /\ ~ ends_with_slash (Client.stripTrailingSlashes E (VStr s))
  /\ Client.stripTrailingSlashes E
       (VStr (Client.stripTrailingSlashes E (VStr s)))
     = Client.stripTrailingSlashes E (VStr s)
  /\ Client.stripTrailingSlashes E VUndefined = [].
Proof.
  assert (Hs : forall t, Client.stripTrailingSlashes E (VStr t)
                         = strip_slashes t).
  { intro t. unfold Client.stripTrailingSlashes. destruct t; reflexivity. }
  rewrite !Hs.
  destruct (strip_slashes_split s) as (tail & Heq & Hall & Hend & Hidem).
  split; [exists tail; split; assumption|].
  split; [exact Hend|]. split; [exact Hidem|reflexivity].
Qed.

Section ConfigFacts.

Variable E : Engine.

Lemma client_base env :
  base (Client.getNewsApiConfig E env)
  = strip_slashes
      match first_set [REACT_APP_NEWS_API_BASE env;
                       REACT_APP_REACT_APP_NEWS_API_BASE env;
                       REACT_APP_API_BASE env;
                       REACT_APP_NEWS_APP_BASE env] with
      | Some b => b
      | None => DEFAULT_BASE
      end.
Proof.
  unfold Client.getNewsApiConfig, Client.stripTrailingSlashes. cbn [base].
  destruct (REACT_APP_NEWS_API_BASE env) as [[|c1 s1]|],
    (REACT_APP_REACT_APP_NEWS_API_BASE env) as [[|c2 s2]|],
    (REACT_APP_API_BASE env) as [[|c3 s3]|],
    (REACT_APP_NEWS_APP_BASE env) as [[|c4 s4]|]; reflexivity.
Qed.

Lemma client_apiKey env :
  apiKey (Client.getNewsApiConfig E env)
  = match REACT_APP_NEWS_API_KEY env with
    | Some (c :: k) => VStr (c :: k)
    | _ => VUndefined
    end.
Proof.
  unfold Client.getNewsApiConfig. cbn [apiKey].
  destruct (REACT_APP_NEWS_API_KEY env) as [[|c k]|]; reflexivity.
Qed.

End ConfigFacts.

(** X2. The base of the configuration is the first of
    REACT_APP_NEWS_API_BASE, REACT_APP_REACT_APP_NEWS_API_BASE,
    REACT_APP_API_BASE and REACT_APP_NEWS_APP_BASE that is set to a
    non-empty string, or the default https://newsapi.org/v2, with its final
    slashes removed: it never ends in a slash. The key is
    REACT_APP_NEWS_API_KEY when that is non-empty and undefined otherwise;
    the misnamed REACT_APP_REACT_APP_NEWSAPI_KEY is never read. *)
Theorem config_takes_the_first_base_that_is_set E env :
  base (Client.getNewsApiConfig E env)
  = strip_slashes
      match first_set [REACT_APP_NEWS_API_BASE env;
                       REACT_APP_REACT_APP_NEWS_API_BASE env;
                       REACT_APP_API_BASE env;
                       REACT_APP_NEWS_APP_BASE env] with
      | Some b => b
      | None => DEFAULT_BASE
      end
  /\ ~ ends_with_slash (base (Client.getNewsApiConfig E env))
  /\ apiKey (Client.getNewsApiConfig E env)
     = match REACT_APP_NEWS_API_KEY env with
       | Some (c :: k) => VStr (c :: k)
       | _ => VUndefined
       end
  /\ (forall other,
         Client.getNewsApiConfig E
           (mkEnv (REACT_APP_NEWS_API_BASE env) (REACT_APP_NEWS_API_KEY env)
              (REACT_APP_REACT_APP_NEWS_API_BASE env) (REACT_APP_API_BASE env)
              (REACT_APP_NEWS_APP_BASE env) other)
         = Client.getNewsApiConfig E env).
Proof.
  split; [apply client_base|]. split; [|split; [apply client_apiKey|]].
  - rewrite client_base.
    match goal with
    | |- ~ ends_with_slash (strip_slashes ?b) =>
        destruct (strip_slashes_split b) as (_ & _ & _ & H & _); exact H
    end.
  - intro other. reflexivity.
Qed.

(** ** The base URL check *)

Lemma scheme_patterns_are_lower :
  lower_pattern (lit "http://") /\ lower_pattern (lit "https://").
Proof. split; repeat constructor. Qed.

Lemma has_http_scheme_spec b :
  has_http_scheme b = true
  <-> begins_with (lit "http://") b \/ begins_with (lit "https://") b.
Proof.
  unfold has_http_scheme, begins_with.
  destruct scheme_patterns_are_lower as [H1 H2].
  rewrite orb_true_iff, (ci_starts_with_spec _ b H1),
    (ci_starts_with_spec _ b H2).
  reflexivity.
Qed.

Section InvalidBase.

Variable E : Engine.

Lemma doFetch_invalid_base env ev endpoint p sig :
  has_http_scheme (base (Client.getNewsApiConfig E env)) = false ->
  Client.doFetch E env ev endpoint p sig
  = throw (ThrownError Client.invalidBaseError).
Proof. intro H. rewrite doFetch_run, H. reflexivity. Qed.

Lemma legacy_doFetch_invalid_base env ev endpoint p sig :
  has_http_scheme (base (Legacy.getNewsApiConfig E env)) = false ->
  sent (Legacy.doFetch E env ev endpoint p sig) = []
  /\ exists e,
       outcome (Legacy.doFetch E env ev endpoint p sig)
       = Rejected (ThrownError e)
       /\ err_code e = VStr (lit "CONFIG").
Proof.
  intro H. rewrite legacy_doFetch_run, H.
  destruct (truthy (apiKey _)); cbn [negb]; split; try reflexivity.
  - exists Legacy.invalidBaseError. split; reflexivity.
  - exists Legacy.missingKeyError. split; reflexivity.
Qed.

End InvalidBase.

(** X3. When the base does not begin with http:// or https:// (in any
    letter case), getTopHeadlines rejects with an error whose code is CONFIG
    and sends nothing, whatever the key and the mode; so does searchEverything
    unless its query is empty. The message names REACT_APP_NEWS_API_BASE. *)
Theorem base_without_http_scheme_is_a_config_error E env ev filters sig :
  ~ begins_with (lit "http://") (base (Client.getNewsApiConfig E env)) ->
  ~ begins_with (lit "https://") (base (Client.getNewsApiConfig E env)) ->
  Client.getTopHeadlines E env ev filters sig
  = ([], Rejected (ThrownError Client.invalidBaseError))
  /\ (searchQuery E filters <> [] ->
      Client.searchEverything E env ev filters sig
      = ([], Rejected (ThrownError Client.invalidBaseError)))
  /\ err_code Client.invalidBaseError = VStr (lit "CONFIG")
  /\ exists msg,
       err_message Client.invalidBaseError = VStr msg
       /\ includes msg (lit "REACT_APP_NEWS_API_BASE") = true.
Proof.
  intros H1 H2.
  assert (Hs : has_http_scheme (base (Client.getNewsApiConfig E env)) = false).
  { destruct (has_http_scheme _) eqn:H; [|reflexivity].
    apply has_http_scheme_spec in H. tauto. }
  split; [|split; [|split]].
  - rewrite getTopHeadlines_run. cbv zeta.
    rewrite (doFetch_invalid_base E _ _ _ _ _ Hs). reflexivity.
  - intro Hq. rewrite searchEverything_run.
    destruct (searchQuery E filters); [congruence|]. cbv zeta.
    rewrite (doFetch_invalid_base E _ _ _ _ _ Hs). reflexivity.
  - reflexivity.
  - eexists. split; reflexivity.
Qed.

(** A run of X3: a base with the ftp scheme. *)
Lemma base_without_http_scheme_witness :
  ~ begins_with (lit "http://")
      (base (Client.getNewsApiConfig Sample.R Inputs.ftp_base))
  /\ ~ begins_with (lit "https://")
         (base (Client.getNewsApiConfig Sample.R Inputs.ftp_base))
  /\ Client.getTopHeadlines Sample.R Inputs.ftp_base
       (Responds Sample.two_articles) [] None
     = ([], Rejected (ThrownError Client.invalidBaseError)).
Proof.
  assert (H1 : ~ begins_with (lit "http://")
                 (base (Client.getNewsApiConfig Sample.R Inputs.ftp_base))).
  { intro H.
    assert (Hs : has_http_scheme
                   (base (Client.getNewsApiConfig Sample.R Inputs.ftp_base))
                 = true)
      by (apply has_http_scheme_spec; left; exact H).
    discriminate Hs. }
  assert (H2 : ~ begins_with (lit "https://")
                 (base (Client.getNewsApiConfig Sample.R Inputs.ftp_base))).
  { intro H.
    assert (Hs : has_http_scheme
                   (base (Client.getNewsApiConfig Sample.R Inputs.ftp_base))
                 = true)
      by (apply has_http_scheme_spec; right; exact H).
    discriminate Hs. }
  split; [exact H1|]. split; [exact H2|].
  apply (base_without_http_scheme_is_a_config_error Sample.R Inputs.ftp_base
           (Responds Sample.two_articles) [] None H1 H2).
Defined.

(** ** buildQuery *)

Section BuildQuery.

Variable E : Engine.

Lemma lookup_absent k (p : params) :
  ~ In k (map fst p) -> lookup k p = VUndefined.
Proof.
  induction p as [|[k0 v0] p IH]; simpl; [reflexivity|].
  intro H. destruct (str_eqb k k0) eqn:Hk.
  - apply str_eqb_eq in Hk. subst. tauto.
  - apply IH. tauto.
Qed.

Lemma str_eqb_sym a b : str_eqb a b = str_eqb b a.
Proof.
  destruct (str_eqb a b) eqn:H1, (str_eqb b a) eqn:H2; auto.
  - apply str_eqb_eq in H1. subst. rewrite str_eqb_refl in H2. discriminate.
  - apply str_eqb_eq in H2. subst. rewrite str_eqb_refl in H1. discriminate.
Qed.

Lemma query_field_step_same sp k v :
  query_field k (query_step E sp (k, v))
  = match query_value E v with
    | Some x => Some x
    | None => query_field k sp
    end.
Proof.
  unfold query_step, query_value. cbn [fst snd].
  destruct v as [| | | |[|]| |]; try reflexivity;
    apply query_field_set_same.
Qed.

(** Reading a name back from the pairs buildQuery collects. *)
Lemma query_field_fold k (p : params) acc :
  NoDup (map fst p) ->
  query_field k (fold_left (query_step E) p acc)
  = match query_value E (lookup k p) with
    | Some x => Some x
    | None => query_field k acc
    end.
Proof.
  revert acc. induction p as [|[k0 v0] p IH]; intros acc Hnd; simpl.
  - reflexivity.
  - inversion Hnd as [|? ? Hnotin Hnd']; subst.
    rewrite (IH _ Hnd').
    destruct (str_eqb k k0) eqn:Hk.
    + apply str_eqb_eq in Hk. subst k0.
      rewrite (lookup_absent k p Hnotin). cbn [query_value].
      apply query_field_step_same.
    + rewrite query_field_step_other by (rewrite str_eqb_sym; exact Hk).
      reflexivity.
Qed.

End BuildQuery.

Lemma query_field_queryPairs E (p : params) k :
  NoDup (map fst p) ->
  query_field k (queryPairs E p) = query_value E (lookup k p).
Proof.
  intro Hnd. unfold queryPairs. rewrite (query_field_fold E k p [] Hnd).
  destruct (query_value E (lookup k p)); reflexivity.
Qed.

(** X4. buildQuery keeps exactly the entries whose value is not undefined,
    null or '': for a params object (its names are distinct), the value of a
    name in the query is the string of the entry's value when the entry is
    kept, and the name is absent from the query otherwise. *)
Theorem buildQuery_keeps_the_values_that_are_set E (p : params) k :
  NoDup (map fst p) ->
  buildQuery E p = searchParams_toString (queryPairs E p)
  /\ query_field k (queryPairs E p) = query_value E (lookup k p)
  /\ (lookup k p = VUndefined \/ lookup k p = VNull \/ lookup k p = VStr [] ->
      query_field k (queryPairs E p) = None).
Proof.
  intro Hnd.
  pose proof (query_field_queryPairs E p k Hnd) as H.
  split; [reflexivity|]. split; [exact H|].
  rewrite H. intros [-> |[-> | ->]]; reflexivity.
Qed.

(** A run of X4: an object with one empty and one set value. *)
Lemma buildQuery_witness :
  NoDup (map fst [(lit "category", VStr []); (lit "country", VStr (lit "gb"))])
  /\ query_field (lit "category")
       (queryPairs Sample.R
          [(lit "category", VStr []); (lit "country", VStr (lit "gb"))])
     = None
  /\ query_field (lit "country")
       (queryPairs Sample.R
          [(lit "category", VStr []); (lit "country", VStr (lit "gb"))])
     = Some (lit "gb").
Proof.
  assert (Hnd : NoDup (map fst [(lit "category", VStr []);
                                (lit "country", VStr (lit "gb"))])).
  { repeat constructor; simpl; intuition discriminate. }
  split; [exact Hnd|]. split.
  - exact (proj1 (proj2 (buildQuery_keeps_the_values_that_are_set Sample.R
                           [(lit "category", VStr []);
                            (lit "country", VStr (lit "gb"))]
                           (lit "category") Hnd))).
  - exact (proj1 (proj2 (buildQuery_keeps_the_values_that_are_set Sample.R
                           [(lit "category", VStr []);
                            (lit "country", VStr (lit "gb"))]
                           (lit "country") Hnd))).
Defined.

(** ** What the requests carry *)

Lemma is_string_spec v s : is_string v s = true <-> v = VStr s.
Proof.
  destruct v; simpl; try (split; discriminate).
  rewrite str_eqb_eq. split; [intros ->; reflexivity|intros [= ->]; reflexivity].
Qed.

Section RequestFields.

Variable E : Engine.

Lemma searchParams_names filters :
  NoDup (map fst (searchParams E filters)).
Proof. repeat constructor; simpl; intuition discriminate. Qed.

Lemma headlineParams_names filters :
  NoDup (map fst (headlineParams E filters)).
Proof.
  unfold headlineParams. cbv zeta. destruct (truthy _);
    repeat constructor; simpl; intuition discriminate.
Qed.

Lemma search_query_field filters k :
  query_field k (queryPairs E (searchParams E filters))
  = query_value E (lookup k (searchParams E filters)).
Proof.
  apply query_field_queryPairs, searchParams_names.
Qed.

Lemma headline_query_field filters k :
  query_field k (queryPairs E (headlineParams E filters))
  = query_value E (lookup k (headlineParams E filters)).
Proof. apply query_field_queryPairs, headlineParams_names. Qed.

Lemma truthy_query_value v :
  truthy v = true -> query_value E v = Some (ToString E v).
Proof.
  destruct v as [| | | |[|]| |]; try discriminate; reflexivity.
Qed.

Lemma headline_category filters :
  lookup (lit "category") (headlineParams E filters)
  = if truthy (lookup (lit "category") filters)
    then lookup (lit "category") filters
    else VUndefined.
Proof.
  unfold headlineParams. cbv zeta. destruct (truthy _); reflexivity.
Qed.

Lemma headline_country filters :
  lookup (lit "country") (headlineParams E filters)
  = or_default (lookup (lit "country") filters) (VStr (lit "us")).
Proof.
  unfold headlineParams. cbv zeta. destruct (truthy _); reflexivity.
Qed.

End RequestFields.

(** X5. Every request searchEverything sends has a query string in which q
    is the trimmed query, which is not empty; sortBy is one of relevancy,
    popularity and publishedAt, namely the caller's value when that is one
    of the three and publishedAt otherwise; and language is en when the
    caller gives none (undefined), the caller's string when that is not
    empty, and is left out altogether when the caller gives '' or null (the
    default does not apply, and buildQuery drops the value). *)
Theorem search_request_is_sanitized E env ev filters sig r :
  In r (sent (Client.searchEverything E env ev filters sig)) ->
  exists q,
    req_url r
    = make_url (base (Client.getNewsApiConfig E env))
        (Client.resolvePath (ClientSpec.proxy_mode E env) (lit "search"))
        (searchParams_toString q)
    /\ searchQuery E filters <> []
    /\ query_field (lit "q") q = Some (searchQuery E filters)
    /\ (exists s, query_field (lit "sortBy") q = Some s /\ In s allowed_sort)
    /\ (forall s,
           In s allowed_sort -> lookup (lit "sortBy") filters = VStr s ->
           query_field (lit "sortBy") q = Some s)
    /\ ((forall s,
            In s allowed_sort -> lookup (lit "sortBy") filters <> VStr s) ->
        query_field (lit "sortBy") q = Some (lit "publishedAt"))
    /\ (lookup (lit "language") filters = VUndefined ->
        query_field (lit "language") q = Some (lit "en"))
    /\ (forall s,
           s <> [] -> lookup (lit "language") filters = VStr s ->
           query_field (lit "language") q = Some s)
    /\ (lookup (lit "language") filters = VStr []
        \/ lookup (lit "language") filters = VNull ->
        query_field (lit "language") q = None).
Proof.
  intro H.
  assert (Hq : searchQuery E filters <> []).
  { apply (searchEverything_sent_query E env ev filters sig).
    intro Hs. rewrite Hs in H. destruct H. }
  apply client_search_requests in H. destruct H as (-> & _).
  exists (queryPairs E (searchParams E filters)).
  split; [reflexivity|]. split; [exact Hq|].
  rewrite !search_query_field.
  change (lookup (lit "q") (searchParams E filters))
    with (VStr (searchQuery E filters)).
  change (lookup (lit "language") (searchParams E filters))
    with (or_default (lookup (lit "language") filters) (VStr (lit "en"))).
  unfold searchParams. cbv zeta.
  set (sortBy := or_default (lookup (lit "sortBy") filters)
                   (VStr (lit "publishedAt"))).
  match goal with
  | |- context [if ?c then sortBy else ?d] =>
      set (sort := if c then sortBy else d)
  end.
  change (lookup (lit "sortBy") (_ :: _)) with sort.
  split.
  { destruct (searchQuery E filters); [congruence|reflexivity]. }
  assert (Hsort : (exists s, sort = VStr s /\ In s allowed_sort)).
  { subst sort.
    destruct (is_string sortBy (lit "relevancy")) eqn:H1;
      [apply is_string_spec in H1; rewrite H1; cbn [orb];
       exists (lit "relevancy"); split; [reflexivity|simpl; auto]|].
    destruct (is_string sortBy (lit "popularity")) eqn:H2;
      [apply is_string_spec in H2; rewrite H2; cbn [orb];
       exists (lit "popularity"); split; [reflexivity|simpl; auto]|].
    destruct (is_string sortBy (lit "publishedAt")) eqn:H3;
      [apply is_string_spec in H3; rewrite H3; cbn [orb];
       exists (lit "publishedAt"); split; [reflexivity|simpl; auto]|].
    cbn [orb]. exists (lit "publishedAt"). split; [reflexivity|simpl; auto]. }
  assert (Hnonempty : forall s, In s allowed_sort ->
                                query_value E (VStr s) = Some s).
  { intros s [<-|[<-|[<-|[]]]]; reflexivity. }
  split; [|split; [|split]].
  - destruct Hsort as (s & -> & Hin). exists s.
    split; [apply Hnonempty, Hin|exact Hin].
  - intros s Hin Hs. subst sort sortBy. rewrite Hs. cbn [or_default].
    assert (Ha : is_string (VStr s) (lit "relevancy")
                 || is_string (VStr s) (lit "popularity")
                 || is_string (VStr s) (lit "publishedAt") = true).
    { destruct Hin as [<-|[<-|[<-|[]]]]; reflexivity. }
    rewrite Ha. apply Hnonempty, Hin.
  - intro Hnone. subst sort.
    assert (Hd : sortBy = VStr (lit "publishedAt")
                 \/ lookup (lit "sortBy") filters = sortBy).
    { subst sortBy. destruct (lookup (lit "sortBy") filters); auto. }
    destruct (is_string sortBy (lit "relevancy")
              || is_string sortBy (lit "popularity")
              || is_string sortBy (lit "publishedAt")) eqn:Ha;
      [|reflexivity].
    destruct Hd as [-> |Hd]; [reflexivity|].
    exfalso. rewrite !orb_true_iff, !is_string_spec in Ha.
    destruct Ha as [[Ha|Ha]|Ha]; rewrite <- Hd in Ha;
      eapply Hnone; try exact Ha; simpl; auto.
  - split; [intros ->; reflexivity|]. split.
    + intros s Hs ->. destruct s; [congruence|reflexivity].
    + intros [-> | ->]; reflexivity.
Qed.


(** A run of X5: the form's search for ' rocq ' sorted by 'bogus'. *)
Lemma search_request_witness :
  In (ClientSpec.request_of Sample.R Sample.direct (lit "search")
        (searchParams Sample.R Inputs.form_search))
     (sent (Client.searchEverything Sample.R Sample.direct
              (Responds Sample.two_articles) Inputs.form_search None))
  /\ exists q,
       query_field (lit "q") q = Some (lit "rocq")
       /\ query_field (lit "sortBy") q = Some (lit "publishedAt").
Proof.
  assert (Hin : In (ClientSpec.request_of Sample.R Sample.direct (lit "search")
                      (searchParams Sample.R Inputs.form_search))
                   (sent (Client.searchEverything Sample.R Sample.direct
                            (Responds Sample.two_articles) Inputs.form_search
                            None)))
    by (left; reflexivity).
  split; [exact Hin|].
  destruct (search_request_is_sanitized Sample.R Sample.direct
              (Responds Sample.two_articles) Inputs.form_search None _ Hin)
    as (q & _ & _ & Hq & _ & _ & Hsort & _).
  exists q. split; [exact Hq|].
  apply Hsort. intros s [<-|[<-|[<-|[]]]]; discriminate.
Defined.

(** X6. Every request getTopHeadlines sends has a query string in which
    country is us when the caller gives none (undefined), the caller's
    string when that is not empty, and is left out altogether when the caller
    gives '' or null (the default does not apply, and buildQuery drops the
    value); and category is present, as its string, exactly when the caller's
    category is truthy: a category of '', null or undefined is left out. *)
Theorem headlines_request_fields E env ev filters sig r :
  In r (sent (Client.getTopHeadlines E env ev filters sig)) ->
  exists q,
    req_url r
    = make_url (base (Client.getNewsApiConfig E env)) (lit "top-headlines")
        (searchParams_toString q)
    /\ (lookup (lit "country") filters = VUndefined ->
        query_field (lit "country") q = Some (lit "us"))
    /\ (forall s,
           s <> [] -> lookup (lit "country") filters = VStr s ->
           query_field (lit "country") q = Some s)
    /\ (lookup (lit "country") filters = VStr []
        \/ lookup (lit "country") filters = VNull ->
        query_field (lit "country") q = None)
    /\ (truthy (lookup (lit "category") filters) = true ->
        query_field (lit "category") q
        = Some (ToString E (lookup (lit "category") filters)))
    /\ (truthy (lookup (lit "category") filters) = false ->
        query_field (lit "category") q = None)
    /\ (forall s,
           s <> [] -> lookup (lit "category") filters = VStr s ->
           query_field (lit "category") q = Some s)
    /\ (lookup (lit "category") filters = VStr []
        \/ lookup (lit "category") filters = VNull
        \/ lookup (lit "category") filters = VUndefined ->
        query_field (lit "category") q = None).
Proof.
  intro H. apply client_headline_requests in H. destruct H as (-> & _).
  exists (queryPairs E (headlineParams E filters)).
  split.
  { unfold ClientSpec.request_of, ClientSpec.url_of. cbn [req_url].
    destruct (ClientSpec.proxy_mode E env); reflexivity. }
  rewrite !headline_query_field, headline_country, headline_category.
  split; [intros ->; reflexivity|].
  split; [intros s Hs ->; destruct s; [congruence|reflexivity]|].
  split; [intros [-> | ->]; reflexivity|].
  split; [intro Hc; rewrite Hc; apply truthy_query_value, Hc|].
  split; [intro Hc; rewrite Hc; reflexivity|].
  split; [intros s Hs ->; destruct s; [congruence|reflexivity]|].
  intros [-> | [-> | ->]]; reflexivity.
Qed.

(** A run of X6: no filters at all. *)
Lemma headlines_request_witness :
  In (ClientSpec.request_of Sample.R Sample.direct (lit "top-headlines")
        (headlineParams Sample.R []))
     (sent (Client.getTopHeadlines Sample.R Sample.direct
              (Responds Sample.two_articles) [] None))
  /\ exists q,
       query_field (lit "country") q = Some (lit "us")
       /\ query_field (lit "category") q = None.
Proof.
  assert (Hin : In (ClientSpec.request_of Sample.R Sample.direct
                      (lit "top-headlines") (headlineParams Sample.R []))
                   (sent (Client.getTopHeadlines Sample.R Sample.direct
                            (Responds Sample.two_articles) [] None)))
    by (left; reflexivity).
  split; [exact Hin|].
  destruct (headlines_request_fields Sample.R Sample.direct
              (Responds Sample.two_articles) [] None _ Hin)
    as (q & _ & Hcountry & _ & _ & _ & Hcat & _).
  exists q. split; [apply Hcountry; reflexivity|apply Hcat; reflexivity].
Defined.

(** ** When a request goes out *)

Section Sending.

Variable E : Engine.

Import ClientSpec.

Lemma doFetch_sent_exactly env ev endpoint p sig :
  sent (Client.doFetch E env ev endpoint p sig)
  = if has_http_scheme (base (Client.getNewsApiConfig E env))
       && (proxy_mode E env
           || truthy (apiKey (Client.getNewsApiConfig E env)))
       && negb (linkSignal sig)
    then [request_of E env endpoint p]
    else [].
Proof.
  rewrite doFetch_run. unfold sent, throw.
  destruct (has_http_scheme _), (proxy_mode E env),
    (truthy (apiKey (Client.getNewsApiConfig E env))), (linkSignal sig);
    reflexivity.
Qed.

Lemma legacy_doFetch_at_most_one env ev endpoint p sig :
  (List.length (sent (Legacy.doFetch E env ev endpoint p sig)) <= 1)%nat.
Proof.
  rewrite legacy_doFetch_run. unfold sent, throw.
  destruct (truthy (apiKey _)), (has_http_scheme _), (linkSignal sig);
    simpl; lia.
Qed.

End Sending.

(** X7. No call, in either revision, asks fetch for more than one request:
    nothing is retried. A call of the proxy-aware revision sends nothing or
    the one request doFetch builds, and it sends that one only if the base
    begins with http(s)://, the mode is proxy or a key is configured, and the
    caller's signal is not already aborted (and, for searchEverything, only
    if the query is not empty): in every other case nothing is sent. *)
Theorem a_call_sends_at_most_one_request E env ev filters sig :
  (sent (Client.getTopHeadlines E env ev filters sig) = []
   \/ sent (Client.getTopHeadlines E env ev filters sig)
      = [ClientSpec.request_of E env (lit "top-headlines")
           (headlineParams E filters)])
  /\ (sent (Client.searchEverything E env ev filters sig) = []
      \/ sent (Client.searchEverything E env ev filters sig)
         = [ClientSpec.request_of E env (lit "search")
              (searchParams E filters)])
  /\ (sent (Client.getTopHeadlines E env ev filters sig) <> []
      \/ sent (Client.searchEverything E env ev filters sig) <> [] ->
      has_http_scheme (base (Client.getNewsApiConfig E env)) = true
      /\ (ClientSpec.proxy_mode E env = true
          \/ truthy (apiKey (Client.getNewsApiConfig E env)) = true)
      /\ linkSignal sig = false)
  /\ (sent (Client.searchEverything E env ev filters sig) <> [] ->
      searchQuery E filters <> [])
  /\ (List.length (sent (Client.getTopHeadlines E env ev filters sig)) <= 1)%nat
  /\ (List.length (sent (Client.searchEverything E env ev filters sig)) <= 1)%nat
  /\ (List.length (sent (Legacy.getTopHeadlines E env ev filters sig)) <= 1)%nat
  /\ (List.length (sent (Legacy.searchEverything E env ev filters sig)) <= 1)%nat.
Proof.
  assert (Ht : sent (Client.getTopHeadlines E env ev filters sig)
               = sent (Client.doFetch E env ev (lit "top-headlines")
                         (headlineParams E filters) sig))
    by apply getTopHeadlines_sent.
  assert (Hs : sent (Client.searchEverything E env ev filters sig)
               = match searchQuery E filters with
                 | [] => []
                 | _ => sent (Client.doFetch E env ev (lit "search")
                                (searchParams E filters) sig)
                 end).
  { rewrite searchEverything_run. destruct (searchQuery E filters); reflexivity. }
  rewrite Ht, Hs, !doFetch_sent_exactly.
  split; [destruct (_ && _); auto|].
  split; [destruct (searchQuery E filters); [auto|]; destruct (_ && _); auto|].
  split.
  { assert (Hc : has_http_scheme (base (Client.getNewsApiConfig E env))
                 && (ClientSpec.proxy_mode E env
                     || truthy (apiKey (Client.getNewsApiConfig E env)))
                 && negb (linkSignal sig) = true ->
                 has_http_scheme (base (Client.getNewsApiConfig E env)) = true
                 /\ (ClientSpec.proxy_mode E env = true
                     \/ truthy (apiKey (Client.getNewsApiConfig E env)) = true)
                 /\ linkSignal sig = false).
    { rewrite !andb_true_iff, orb_true_iff, negb_true_iff. tauto. }
    destruct (_ && _ && _); [intros _; apply Hc; reflexivity|].
    destruct (searchQuery E filters); intros [H|H]; congruence. }
  split; [destruct (searchQuery E filters); [congruence|discriminate]|].
  split; [destruct (_ && _); simpl; lia|].
  split; [destruct (searchQuery E filters); [simpl; lia|];
          destruct (_ && _); simpl; lia|].
  split.
  - unfold Legacy.getTopHeadlines.
    rewrite sent_bind_quiet by apply legacy_normalize_sends_nothing.
    apply legacy_doFetch_at_most_one.
  - unfold Legacy.searchEverything.
    destruct (negb (truthy (VStr (searchQuery E filters)))); [simpl; lia|].
    rewrite sent_bind_quiet by apply legacy_normalize_sends_nothing.
    apply legacy_doFetch_at_most_one.
Qed.

(** A run of X7: a call in direct mode with a key. *)
Lemma a_call_sends_witness :
  sent (Client.getTopHeadlines Sample.R Sample.direct
          (Responds Sample.two_articles) [] None) <> []
  /\ has_http_scheme (base (Client.getNewsApiConfig Sample.R Sample.direct))
     = true
  /\ linkSignal None = false.
Proof.
  assert (Hne : sent (Client.getTopHeadlines Sample.R Sample.direct
                        (Responds Sample.two_articles) [] None) <> [])
    by discriminate.
  split; [exact Hne|].
  destruct (a_call_sends_at_most_one_request Sample.R Sample.direct
              (Responds Sample.two_articles) [] None)
    as (_ & _ & H & _).
  destruct (H (or_introl Hne)) as (Hs & _ & Hl).
  split; [exact Hs|exact Hl].
Defined.

(** X8. With a sound configuration (a base that begins with http(s)://, and
    proxy mode or a key) and a signal that is already aborted when the call
    is made, getTopHeadlines sends nothing and rejects with the AbortError of
    fetch, unchanged; so does searchEverything when its query is not empty. *)
Theorem aborted_signal_sends_nothing E env ev filters :
  has_http_scheme (base (Client.getNewsApiConfig E env)) = true ->
  ClientSpec.proxy_mode E env = true
  \/ truthy (apiKey (Client.getNewsApiConfig E env)) = true ->
  Client.getTopHeadlines E env ev filters (Some true)
  = ([], Rejected (ThrownError (AbortError E)))
  /\ (searchQuery E filters <> [] ->
      Client.searchEverything E env ev filters (Some true)
      = ([], Rejected (ThrownError (AbortError E))))
  /\ err_name (AbortError E) = VStr (lit "AbortError")
  /\ err_code (AbortError E) <> VStr (lit "NETWORK").
Proof.
  intros Hs Hk.
  assert (Hd : forall endpoint p,
             Client.doFetch E env ev endpoint p (Some true)
             = ([], Rejected (ThrownError (AbortError E)))).
  { intros endpoint p. rewrite doFetch_run, Hs. cbn [negb linkSignal].
    destruct Hk as [-> | ->];
      [|rewrite andb_false_r]; reflexivity. }
  split; [|split; [|split]].
  - rewrite getTopHeadlines_run. cbv zeta. rewrite Hd. reflexivity.
  - intro Hq. rewrite searchEverything_run.
    destruct (searchQuery E filters); [congruence|].
    cbv zeta. rewrite Hd. reflexivity.
  - reflexivity.
  - discriminate.
Qed.

(** A run of X8: direct mode with a key. *)
Lemma aborted_signal_witness :
  has_http_scheme (base (Client.getNewsApiConfig Sample.R Sample.direct))
  = true
  /\ truthy (apiKey (Client.getNewsApiConfig Sample.R Sample.direct)) = true
  /\ Client.getTopHeadlines Sample.R Sample.direct
       (Responds Sample.two_articles) [] (Some true)
     = ([], Rejected (ThrownError (AbortError Sample.R))).
Proof.
  split; [reflexivity|]. split; [reflexivity|].
  apply (aborted_signal_sends_nothing Sample.R Sample.direct
           (Responds Sample.two_articles) []).
  - reflexivity.
  - right. reflexivity.
Defined.

(** ** Network errors *)

Lemma starts_with_app needle post : starts_with needle (needle ++ post) = true.
Proof.
  induction needle as [|c needle IH]; simpl; [reflexivity|].
  rewrite N.eqb_refl. exact IH.
Qed.

Lemma includes_starts s needle :
  starts_with needle s = true -> includes s needle = true.
Proof. destruct s; simpl; intros ->; reflexivity. Qed.

Lemma includes_app pre needle post :
  includes (pre ++ needle ++ post) needle = true.
Proof.
  induction pre as [|c pre IH].
  - apply includes_starts. exact (starts_with_app needle post).
  - change ((c :: pre) ++ needle ++ post)
      with (c :: (pre ++ needle ++ post)).
    cbn [includes]. rewrite IH. apply orb_true_r.
Qed.

Lemma toLowerCase_app a b :
  toLowerCase (a ++ b) = toLowerCase a ++ toLowerCase b.
Proof. apply flat_map_app. Qed.

(** Lower-casing a lower-case letter or its capital gives the letter. *)
Lemma lower_unit_same_letter p c :
  lower_unit p = [p] -> same_letter p c -> lower_unit c = [p].
Proof.
  intros Hp [-> |[Hl ->]]; [exact Hp|].
  apply between_spec in Hl. unfold lower_unit.
  assert (Hb : between 65 90 (p - 32) = true) by (apply between_spec; lia).
  rewrite Hb. f_equal. lia.
Qed.

Lemma toLowerCase_same_letters pat mid :
  Forall (fun p => lower_unit p = [p]) pat ->
  Forall2 same_letter pat mid -> toLowerCase mid = pat.
Proof.
  intros Hpat Hall. induction Hall as [|p c pat mid Hc Hall IH]; simpl.
  - reflexivity.
  - inversion Hpat as [|? ? Hp Hpat']; subst.
    rewrite (lower_unit_same_letter p c Hp Hc), (IH Hpat'). reflexivity.
Qed.

Lemma network_fragments_are_lower frag :
  In frag network_fragments -> Forall (fun p => lower_unit p = [p]) frag.
Proof.
  intros [<-|[<-|[<-|[<-|[]]]]]; repeat constructor.
Qed.

Section NetworkErrors.

Variable E : Engine.

(** A TypeError whose message mentions one of the fragments, in any letter
    case, is a network error for the client. *)
Lemma mentioned_fragment_is_recognised frag msg :
  In frag network_fragments -> mentions frag msg ->
  isNetworkOrCORSError E (TypeError msg) = true.
Proof.
  intros Hin (pre & mid & post & -> & Hall).
  assert (Hinc : includes (toLowerCase (pre ++ mid ++ post)) frag = true).
  { rewrite !toLowerCase_app,
      (toLowerCase_same_letters frag mid
         (network_fragments_are_lower frag Hin) Hall).
    apply includes_app. }
  unfold isNetworkOrCORSError, TypeError.
  cbn [thrown_truthy negb thrown_get err_message err_name].
  replace (ToString E (js_or (VStr (pre ++ mid ++ post)) (VStr [])))
    with (pre ++ mid ++ post)
    by (destruct (pre ++ mid ++ post); reflexivity).
  destruct Hin as [<-|[<-|[<-|[<-|[]]]]]; rewrite Hinc;
    rewrite ?orb_true_r; reflexivity.
Qed.

End NetworkErrors.

(** X9. When fetch rejects with a TypeError whose message mentions 'failed
    to fetch', 'networkerror', 'load failed' or 'cors', written in any letter
    case, the call rejects with a new error whose code is NETWORK, whose
    message names the mode in brackets, and whose details are the URL and
    the mode; the browser's own message is not passed on. *)
Theorem network_failure_is_rewrapped E env filters sig frag msg :
  In frag network_fragments -> mentions frag msg ->
  sent (Client.getTopHeadlines E env (Fails (TypeError msg)) filters sig)
  <> [] ->
  isNetworkOrCORSError E (TypeError msg) = true
  /\ outcome (Client.getTopHeadlines E env (Fails (TypeError msg)) filters sig)
     = Rejected
         (ThrownError
            (Client.networkError
               (ClientSpec.url_of E env (lit "top-headlines")
                  (headlineParams E filters))
               (ClientSpec.mode_name E env)))
  /\ forall url mode,
       err_code (Client.networkError url mode) = VStr (lit "NETWORK")
       /\ err_details (Client.networkError url mode)
          = VObj [(lit "url", VStr url); (lit "mode", VStr mode)]
       /\ exists text,
            err_message (Client.networkError url mode) = VStr text
            /\ includes text (lit "(" ++ mode ++ lit ")") = true.
Proof.
  intros Hin Hm Hsent.
  pose proof (mentioned_fragment_is_recognised E frag msg Hin Hm) as Hrec.
  split; [exact Hrec|]. split.
  - rewrite getTopHeadlines_sent in Hsent.
    rewrite getTopHeadlines_outcome,
      (doFetch_outcome_after_request E _ _ _ _ _ Hsent).
    cbn [ClientSpec.after_request map_completion].
    rewrite (toUserFacingError_network E _ _ _ Hrec). reflexivity.
  - intros url mode. split; [reflexivity|]. split; [reflexivity|].
    eexists. split; [reflexivity|].
    replace (lit "Network/CORS error: Unable to reach the news service ("
             ++ mode
             ++ lit "). If using a proxy, ensure REACT_APP_NEWS_API_BASE points to it and that the proxy is running. Otherwise verify CORS/network access and try again.")
      with (lit "Network/CORS error: Unable to reach the news service "
            ++ (lit "(" ++ mode ++ lit ")")
            ++ lit ". If using a proxy, ensure REACT_APP_NEWS_API_BASE points to it and that the proxy is running. Otherwise verify CORS/network access and try again.")
      by (rewrite <- !app_assoc; reflexivity).
    apply includes_app.
Qed.

(** A run of X9: Firefox's wording, in a proxy set-up. *)
Lemma network_failure_witness :
  In (lit "networkerror") network_fragments
  /\ mentions (lit "networkerror")
       (lit "NetworkError when attempting to fetch resource.")
  /\ sent (Client.getTopHeadlines Sample.R Sample.proxied
             (Fails (TypeError
                       (lit "NetworkError when attempting to fetch resource.")))
             [] None) <> []
  /\ isNetworkOrCORSError Sample.R
       (TypeError (lit "NetworkError when attempting to fetch resource."))
     = true.
Proof.
  assert (Hin : In (lit "networkerror") network_fragments)
    by (right; left; reflexivity).
  assert (Hm : mentions (lit "networkerror")
                 (lit "NetworkError when attempting to fetch resource.")).
  { exists [], (lit "NetworkError"),
      (lit " when attempting to fetch resource.").
    split; [reflexivity|].
    repeat constructor; solve [left; reflexivity | right; split; reflexivity]. }
  assert (Hs : sent (Client.getTopHeadlines Sample.R Sample.proxied
                       (Fails (TypeError
                                 (lit "NetworkError when attempting to fetch resource.")))
                       [] None) <> [])
    by discriminate.
  split; [exact Hin|]. split; [exact Hm|]. split; [exact Hs|].
  apply (network_failure_is_rewrapped Sample.R Sample.proxied [] None
           (lit "networkerror")
           (lit "NetworkError when attempting to fetch resource.") Hin Hm Hs).
Defined.

(** ** Where the key travels *)

Section KeyOnTheWire.

Variable E : Engine.

Import ClientSpec.

Lemma with_key_proxy_mode env key :
  proxy_mode E (with_key env key) = proxy_mode E env.
Proof. reflexivity. Qed.

Lemma with_key_url env key endpoint p :
  url_of E (with_key env key) endpoint p = url_of E env endpoint p.
Proof. reflexivity. Qed.

(** In proxy mode doFetch does the same with and without a key. *)
Lemma doFetch_proxy_ignores_key env ev endpoint p sig key :
  proxy_mode E env = true ->
  Client.doFetch E (with_key env key) ev endpoint p sig
  = Client.doFetch E env ev endpoint p sig.
Proof.
  intro Hp. rewrite !doFetch_run.
  unfold request_of, after_request.
  rewrite !with_key_url, !with_key_proxy_mode, !with_key_base, Hp.
  unfold mode_name. rewrite !with_key_proxy_mode. cbn [negb andb].
  unfold Client.requestHeaders. reflexivity.
Qed.

Lemma doFetch_urls_with_key env ev endpoint p sig key1 key2 :
  key1 <> [] -> key2 <> [] ->
  map req_url (sent (Client.doFetch E (with_key env key1) ev endpoint p sig))
  = map req_url
      (sent (Client.doFetch E (with_key env key2) ev endpoint p sig)).
Proof.
  intros H1 H2. rewrite !doFetch_sent_exactly.
  rewrite !with_key_base, !with_key_proxy_mode,
    (with_key_truthy E env key1 H1), (with_key_truthy E env key2 H2).
  destruct (_ && _); reflexivity.
Qed.

End KeyOnTheWire.

(** X10. The key travels in the X-Api-Key header only: two calls that differ
    only in the value of the (non-empty) key send requests with the same
    URLs. In proxy mode the key is not used at all: a call with a key
    configured sends the same requests and has the same outcome as the call
    with the environment as it was, whatever key that one had or lacked. *)
Theorem key_is_never_in_the_url E env ev filters sig key1 key2 :
  key1 <> [] -> key2 <> [] ->
  map req_url
    (sent (Client.getTopHeadlines E (with_key env key1) ev filters sig))
  = map req_url
      (sent (Client.getTopHeadlines E (with_key env key2) ev filters sig))
  /\ map req_url
       (sent (Client.searchEverything E (with_key env key1) ev filters sig))
     = map req_url
         (sent (Client.searchEverything E (with_key env key2) ev filters sig))
  /\ (ClientSpec.proxy_mode E env = true ->
      Client.getTopHeadlines E (with_key env key1) ev filters sig
      = Client.getTopHeadlines E env ev filters sig
      /\ Client.searchEverything E (with_key env key1) ev filters sig
         = Client.searchEverything E env ev filters sig).
Proof.
  intros H1 H2. split; [|split].
  - rewrite !getTopHeadlines_sent. apply doFetch_urls_with_key; assumption.
  - rewrite !searchEverything_run.
    destruct (searchQuery E filters); [reflexivity|]. cbv zeta.
    unfold sent at 1 3. cbn [fst].
    apply doFetch_urls_with_key; assumption.
  - intro Hp. split.
    + rewrite !getTopHeadlines_run. cbv zeta.
      rewrite (doFetch_proxy_ignores_key E _ _ _ _ _ _ Hp). reflexivity.
    + rewrite !searchEverything_run.
      destruct (searchQuery E filters); [reflexivity|]. cbv zeta.
      rewrite (doFetch_proxy_ignores_key E _ _ _ _ _ _ Hp). reflexivity.
Qed.

(** A run of X10: a proxy, with and without a key in the environment. *)
Lemma key_is_never_in_the_url_witness :
  lit "SECRET123" <> [] /\ lit "another-key" <> []
  /\ ClientSpec.proxy_mode Sample.R Sample.proxied = true
  /\ Client.getTopHeadlines Sample.R (with_key Sample.proxied (lit "SECRET123"))
       (Responds Sample.two_articles) [] None
     = Client.getTopHeadlines Sample.R Sample.proxied
         (Responds Sample.two_articles) [] None.
Proof.
  split; [discriminate|]. split; [discriminate|]. split; [reflexivity|].
  apply (key_is_never_in_the_url Sample.R Sample.proxied
           (Responds Sample.two_articles) [] None (lit "SECRET123")
           (lit "another-key")); [discriminate|discriminate|reflexivity].
Defined.

(** ** The two revisions side by side *)

Section Revisions.

Variable E : Engine.

Lemma same_base env :
  no_legacy_base env ->
  base (Legacy.getNewsApiConfig E env) = base (Client.getNewsApiConfig E env).
Proof.
  unfold no_legacy_base, Legacy.getNewsApiConfig, Client.getNewsApiConfig,
    Client.stripTrailingSlashes.
  cbn [base].
  destruct (REACT_APP_NEWS_API_BASE env) as [[|c1 s1]|],
    (REACT_APP_REACT_APP_NEWS_API_BASE env) as [[|c2 s2]|],
    (REACT_APP_API_BASE env) as [[|c3 s3]|],
    (REACT_APP_NEWS_APP_BASE env) as [[|c4 s4]|];
    cbn; try discriminate; reflexivity.
Qed.

Lemma same_key env key :
  REACT_APP_NEWS_API_KEY env = Some key -> key <> [] ->
  apiKey (Legacy.getNewsApiConfig E env) = VStr key
  /\ apiKey (Client.getNewsApiConfig E env) = VStr key.
Proof.
  unfold Legacy.getNewsApiConfig, Client.getNewsApiConfig. cbn [apiKey].
  intros -> Hne. destruct key; [congruence|]. split; reflexivity.
Qed.

Lemma same_doFetch_requests env ev endpoint p sig key :
  no_legacy_base env ->
  ClientSpec.proxy_mode E env = false ->
  REACT_APP_NEWS_API_KEY env = Some key -> key <> [] ->
  sent (Legacy.doFetch E env ev
          (Client.resolvePath false endpoint) p sig)
  = sent (Client.doFetch E env ev endpoint p sig).
Proof.
  intros Hb Hp Hk Hne.
  destruct (same_key env key Hk Hne) as [Hl Hc].
  rewrite legacy_doFetch_run, doFetch_run.
  unfold LegacySpec.request_of, LegacySpec.url_of, ClientSpec.request_of,
    ClientSpec.url_of.
  rewrite Hp, Hl, Hc, (same_base env Hb).
  destruct key; [congruence|]. cbn [truthy negb andb].
  destruct (has_http_scheme _); [|reflexivity]. cbn [negb].
  destruct (linkSignal sig); reflexivity.
Qed.

End Revisions.

(** X11. In direct mode, with the base set through REACT_APP_NEWS_API_BASE
    (or left to the default) and a key in REACT_APP_NEWS_API_KEY, the
    proxy-aware revision sends exactly the requests of the revision without
    modes, for both operations: same URL (the search goes to 'everything'),
    same method, same X-Api-Key header. *)
Theorem direct_mode_sends_what_the_revision_without_modes_sends
  E env ev filters sig key :
  no_legacy_base env ->
  ClientSpec.proxy_mode E env = false ->
  REACT_APP_NEWS_API_KEY env = Some key -> key <> [] ->
  sent (Client.getTopHeadlines E env ev filters sig)
  = sent (Legacy.getTopHeadlines E env ev filters sig)
  /\ sent (Client.searchEverything E env ev filters sig)
     = sent (Legacy.searchEverything E env ev filters sig).
Proof.
  intros Hb Hp Hk Hne. split.
  - rewrite getTopHeadlines_sent. unfold Legacy.getTopHeadlines.
    rewrite sent_bind_quiet by apply legacy_normalize_sends_nothing.
    symmetry.
    apply (same_doFetch_requests E env ev (lit "top-headlines") _ sig key);
      assumption.
  - rewrite searchEverything_run. unfold Legacy.searchEverything.
    destruct (searchQuery E filters) as [|c q]; [reflexivity|].
    cbn [truthy negb]. cbv zeta. unfold sent at 1. cbn [fst].
    rewrite sent_bind_quiet by apply legacy_normalize_sends_nothing.
    symmetry.
    apply (same_doFetch_requests E env ev (lit "search") _ sig key);
      assumption.
Qed.

(** A run of X11: the default base and a key. *)
Lemma direct_mode_revisions_witness :
  no_legacy_base Sample.direct
  /\ ClientSpec.proxy_mode Sample.R Sample.direct = false
  /\ REACT_APP_NEWS_API_KEY Sample.direct = Some (lit "SECRET123")
  /\ lit "SECRET123" <> []
  /\ sent (Client.searchEverything Sample.R Sample.direct
             (Responds Sample.two_articles) Inputs.form_search None)
     = sent (Legacy.searchEverything Sample.R Sample.direct
               (Responds Sample.two_articles) Inputs.form_search None).
Proof.
  split; [reflexivity|]. split; [reflexivity|]. split; [reflexivity|].
  split; [discriminate|].
  apply (direct_mode_sends_what_the_revision_without_modes_sends Sample.R
           Sample.direct (Responds Sample.two_articles) Inputs.form_search
           None (lit "SECRET123")); try reflexivity.
  discriminate.
Defined.

(** ** The clamps once more *)

Lemma clamp_page_size_idempotent n :
  clamp_page_size (clamp_page_size n) = clamp_page_size n.
Proof.
  destruct n as [| | |q]; try reflexivity.
  unfold clamp_page_size at 2 3.
  destruct (Qeq_bool q 0) eqn:H0; [reflexivity|].
  destruct (Qle_bool q (inject_Z 1)) eqn:H1; [reflexivity|].
  destruct (Qle_bool q (inject_Z 100)) eqn:H2; [|reflexivity].
  cbn [clamp_page_size]. rewrite H0, H1, H2. reflexivity.
Qed.

Lemma clamp_page_idempotent n : clamp_page (clamp_page n) = clamp_page n.
Proof.
  destruct n as [| | |q]; try reflexivity.
  unfold clamp_page at 2 3.
  destruct (Qeq_bool q 0) eqn:H0; [reflexivity|].
  destruct (Qle_bool q (inject_Z 1)) eqn:H1; [reflexivity|].
  cbn [clamp_page]. rewrite H0, H1. reflexivity.
Qed.

Lemma clamp_page_integer z : 1 <= z -> clamp_page (num z) = num z.
Proof.
  intro Hz. unfold clamp_page, num. change 0%Q with (inject_Z 0).
  rewrite Qeq_bool_inject_Z, Qle_bool_inject_Z.
  destruct (z =? 0) eqn:H0; [apply Z.eqb_eq in H0; lia|].
  destruct (z <=? 1) eqn:H1; [|reflexivity].
  apply Z.leb_le in H1. replace z with 1 by lia. reflexivity.
Qed.

(** X12. A page size that is an integer from 1 to 100 and a page that is an
    integer of at least 1 are sent as they are, and clamping is idempotent:
    a value that went through safePageSize or safePage goes through it again
    unchanged. *)
Theorem valid_paging_is_sent_unchanged E :
  (forall z, 1 <= z <= 100 -> safePageSize E (VNum (num z)) = num z)
  /\ (forall z, 1 <= z -> safePage E (VNum (num z)) = num z)
  /\ (forall v,
         safePageSize E (VNum (safePageSize E v)) = safePageSize E v)
  /\ (forall v, safePage E (VNum (safePage E v)) = safePage E v).
Proof.
  split; [|split; [|split]].
  - intros z Hz. rewrite safePageSize_cases. cbn [ToNumber].
    rewrite clamp_page_size_integer. unfold clamp_page_size_Z.
    destruct (z =? 0) eqn:H0; [apply Z.eqb_eq in H0; lia|].
    destruct (z <=? 1) eqn:H1;
      [apply Z.leb_le in H1; replace z with 1 by lia; reflexivity|].
    destruct (z <=? 100) eqn:H2; [reflexivity|apply Z.leb_gt in H2; lia].
  - intros z Hz. rewrite safePage_cases. cbn [ToNumber].
    apply clamp_page_integer, Hz.
  - intro v. rewrite !safePageSize_cases. cbn [ToNumber].
    apply clamp_page_size_idempotent.
  - intro v. rewrite !safePage_cases. cbn [ToNumber].
    apply clamp_page_idempotent.
Qed.

(** A run of X12: the page size the headlines view asks for. *)
Lemma valid_paging_witness :
  1 <= 12 <= 100 /\ safePageSize Sample.R (VNum (num 12)) = num 12.
Proof.
  split; [lia|].
  apply (valid_paging_is_sent_unchanged Sample.R). lia.
Defined.

(** * Properties of the views *)

Lemma js_or_truthy a b : truthy b = true -> truthy (js_or a b) = true.
Proof. unfold js_or. destruct (truthy a) eqn:Ha; auto. Qed.

Lemma nonempty_length_is_truthy {A} (a : A) (l : list A) :
  truthy (VNum (num (Z.of_nat (List.length (a :: l))))) = true
  /\ is_zero (VNum (num (Z.of_nat (List.length (a :: l))))) = false.
Proof.
  unfold truthy, is_zero, num. change 0%Q with (inject_Z 0).
  rewrite Qeq_bool_inject_Z.
  assert (H : (Z.of_nat (List.length (a :: l)) =? 0) = false)
    by (apply Z.eqb_neq; simpl List.length; lia).
  rewrite H. split; reflexivity.
Qed.

Section ViewFacts.

Variable E : Engine.

Lemma search_enriched_truthy e : truthy (SearchView.enriched E e) = true.
Proof.
  unfold SearchView.enriched.
  set (msg := js_or _ _).
  assert (Hm : truthy msg = true) by (apply js_or_truthy; reflexivity).
  destruct (is_string _ (lit "NETWORK")); [destruct (ToString E msg); reflexivity|].
  destruct (is_string _ (lit "CONFIG")); [destruct (ToString E msg); reflexivity|].
  exact Hm.
Qed.


(** What either operation resolves with has an array of articles. *)
Lemma client_articles_are_an_array env ev filters sig res :
  outcome (Client.getTopHeadlines E env ev filters sig) = Fulfilled res
  \/ outcome (Client.searchEverything E env ev filters sig) = Fulfilled res ->
  exists items, articles res = VArr items.
Proof.
  intro H. apply client_result_is_normalized in H.
  destruct H as (r & _ & _ & _ & Hitems). exact Hitems.
Qed.

End ViewFacts.

(** X13. A search of the search view during which no other search starts
    or settles leaves loading off and: if it resolved with at least one
    article, the articles, an empty error and NewsList on its grid; if it
    resolved with none, the error 'No results found for your query.' and
    NewsList on its error banner; if it rejected, no articles and the
    enriched message, which is never empty, in the error banner. Searches
    that overlap are not kept apart: when one of two searches in flight
    rejects and the other resolves with articles, in whichever order they
    settle, NewsList ends on the error banner with the rejection's
    message. *)
Theorem search_view_shows_results_or_an_error E env ev p s :
  (st_loading
     (SearchView.handleSearch_resume E
        (outcome (Client.searchEverything E env ev p fresh_signal))
        (SearchView.handleSearch_begin s))
   = false
   /\ match outcome (Client.searchEverything E env ev p fresh_signal) with
      | Fulfilled res =>
          st_articles
            (SearchView.handleSearch_resume E (Fulfilled res)
               (SearchView.handleSearch_begin s))
          = articles res
          /\ ((exists a items,
                  articles res = VArr (a :: items)
                  /\ st_error
                       (SearchView.handleSearch_resume E (Fulfilled res)
                          (SearchView.handleSearch_begin s))
                     = VStr []
                  /\ render
                       (SearchView.handleSearch_resume E (Fulfilled res)
                          (SearchView.handleSearch_begin s))
                     = ArticleGrid (articles res))
              \/ (articles res = VArr []
                  /\ render
                       (SearchView.handleSearch_resume E (Fulfilled res)
                          (SearchView.handleSearch_begin s))
                     = ErrorBanner
                         (VStr (lit "No results found for your query."))))
      | Rejected e =>
          st_articles
            (SearchView.handleSearch_resume E (Rejected e)
               (SearchView.handleSearch_begin s))
          = VArr []
          /\ truthy (SearchView.enriched E e) = true
          /\ render
               (SearchView.handleSearch_resume E (Rejected e)
                  (SearchView.handleSearch_begin s))
             = ErrorBanner (SearchView.enriched E e)
      end)
  /\ (forall e res a items,
         articles res = VArr (a :: items) ->
         render
           (SearchView.handleSearch_resume E (Fulfilled res)
              (SearchView.handleSearch_resume E (Rejected e)
                 (SearchView.handleSearch_begin
                    (SearchView.handleSearch_begin s))))
         = ErrorBanner (SearchView.enriched E e)
         /\ render
              (SearchView.handleSearch_resume E (Rejected e)
                 (SearchView.handleSearch_resume E (Fulfilled res)
                    (SearchView.handleSearch_begin
                       (SearchView.handleSearch_begin s))))
            = ErrorBanner (SearchView.enriched E e)).
Proof.
  split.
  - unfold SearchView.handleSearch_resume, SearchView.handleSearch_begin,
      render.
    destruct (outcome (Client.searchEverything E env ev p fresh_signal))
      as [res|e] eqn:Ho.
    + destruct (client_articles_are_an_array E env ev p fresh_signal res
                  (or_intror Ho)) as (items & Hitems).
      rewrite Hitems. destruct items as [|a items].
      * split; [reflexivity|]. split; [reflexivity|]. right.
        split; reflexivity.
      * cbn [opt_length].
        destruct (nonempty_length_is_truthy a items) as [Ht Hz].
        rewrite Ht. cbn [negb].
        split; [reflexivity|]. split; [reflexivity|]. left.
        exists a, items. split; [reflexivity|]. split; [reflexivity|].
        unfold NewsList. cbn [setLoading setError setArticles st_loading
                                st_error st_articles truthy opt_length negb
                                orb].
        rewrite Hz. reflexivity.
    + pose proof (search_enriched_truthy E e) as Ht.
      split; [reflexivity|]. split; [reflexivity|]. split; [exact Ht|].
      unfold NewsList. cbn [setLoading setError setArticles st_loading
                              st_error st_articles].
      rewrite Ht. reflexivity.
  - intros e res a items Hitems.
    pose proof (search_enriched_truthy E e) as Ht.
    destruct (nonempty_length_is_truthy a items) as [Hl _].
    unfold SearchView.handleSearch_resume, SearchView.handleSearch_begin,
      render, NewsList.
    rewrite Hitems. cbn [opt_length]. rewrite Hl.
    cbn [negb setLoading setError setArticles st_loading st_error
           st_articles].
    rewrite Ht. split; reflexivity.
Qed.

(** A run of X13: a search that fails to reach the network settles
    before one, started meanwhile, that finds two articles. *)
Lemma search_view_overlap_witness :
  exists e,
    outcome (Client.searchEverything Sample.R Sample.direct
               (Fails Sample.failed_to_fetch) Inputs.form_search fresh_signal)
    = Rejected e
    /\ articles (Client.normalize (parsed_body Sample.two_articles))
       = VArr [VObj [(lit "title", VStr (lit "a"))];
               VObj [(lit "title", VStr (lit "b"))]]
    /\ render
         (SearchView.handleSearch_resume Sample.R
            (Fulfilled (Client.normalize (parsed_body Sample.two_articles)))
            (SearchView.handleSearch_resume Sample.R (Rejected e)
               (SearchView.handleSearch_begin
                  (SearchView.handleSearch_begin initial_view))))
       = ErrorBanner (SearchView.enriched Sample.R e).
Proof.
  eexists. split; [reflexivity|]. split; [reflexivity|].
  destruct (search_view_shows_results_or_an_error Sample.R Sample.direct
              (Fails Sample.failed_to_fetch) Inputs.form_search initial_view)
    as [_ H].
  eapply H. reflexivity.
Defined.



(** X15. Every request the headlines view causes asks for 12 articles of
    page 1, for the selected country, and names a category only when one is
    selected: the category 'All' (the empty string) is left out of the
    query. *)
Theorem headlines_view_request E env ev country category sig r :
  In r
    (sent (Client.getTopHeadlines E env ev
             (TopHeadlinesView.fetchParams country category) sig)) ->
  exists q,
    req_url r
    = make_url (base (Client.getNewsApiConfig E env)) (lit "top-headlines")
        (searchParams_toString q)
    /\ query_field (lit "pageSize") q = Some (NumberToString E (num 12))
    /\ query_field (lit "page") q = Some (NumberToString E (num 1))
    /\ query_field (lit "country") q
       = match country with [] => None | _ => Some country end
    /\ query_field (lit "category") q
       = match category with [] => None | _ => Some category end.
Proof.
  intro H. apply client_headline_requests in H. destruct H as (-> & _).
  exists (queryPairs E
            (headlineParams E (TopHeadlinesView.fetchParams country category))).
  split.
  { unfold ClientSpec.request_of, ClientSpec.url_of. cbn [req_url].
    destruct (ClientSpec.proxy_mode E env); reflexivity. }
  destruct (headline_query_paging E
              (TopHeadlinesView.fetchParams country category)) as [Hps Hp].
  cbv zeta in Hps, Hp.
  split; [rewrite Hps; reflexivity|].
  split; [rewrite Hp; reflexivity|].
  rewrite !headline_query_field, headline_country, headline_category.
  split.
  - change (lookup (lit "country")
              (TopHeadlinesView.fetchParams country category))
      with (VStr country).
    destruct country; reflexivity.
  - change (lookup (lit "category")
              (TopHeadlinesView.fetchParams country category))
      with (js_or (VStr category) VUndefined).
    destruct category; reflexivity.
Qed.

(** A run of X15: country gb, category 'All'. *)
Lemma headlines_view_request_witness :
  In (ClientSpec.request_of Sample.R Sample.direct (lit "top-headlines")
        (headlineParams Sample.R
           (TopHeadlinesView.fetchParams (lit "gb") [])))
     (sent (Client.getTopHeadlines Sample.R Sample.direct
              (Responds Sample.two_articles)
              (TopHeadlinesView.fetchParams (lit "gb") []) fresh_signal))
  /\ req_url
       (ClientSpec.request_of Sample.R Sample.direct (lit "top-headlines")
          (headlineParams Sample.R
             (TopHeadlinesView.fetchParams (lit "gb") [])))
     = lit "https://newsapi.org/v2/top-headlines?country=gb&pageSize=12&page=1"
  /\ exists q,
       query_field (lit "pageSize") q = Some (lit "12")
       /\ query_field (lit "category") q = None.
Proof.
  assert (Hin : In (ClientSpec.request_of Sample.R Sample.direct
                      (lit "top-headlines")
                      (headlineParams Sample.R
                         (TopHeadlinesView.fetchParams (lit "gb") [])))
                   (sent (Client.getTopHeadlines Sample.R Sample.direct
                            (Responds Sample.two_articles)
                            (TopHeadlinesView.fetchParams (lit "gb") [])
                            fresh_signal)))
    by (left; reflexivity).
  split; [exact Hin|]. split; [reflexivity|].
  destruct (headlines_view_request Sample.R Sample.direct
              (Responds Sample.two_articles) (lit "gb") [] fresh_signal _ Hin)
    as (q & _ & Hps & _ & _ & Hcat).
  exists q. split; [exact Hps|exact Hcat].
Defined.

(** X16. Every request a submitted search form causes has q set to the
    trimmed text of the query box, page 1, the default page size 10, the
    selected sort order when it is one of the three the upstream knows and
    publishedAt otherwise, and the selected language; a query box holding
    only white space causes no request. *)
Theorem search_form_request E env ev q sortBy language sig :
  (trim q = [] ->
   sent (Client.searchEverything E env ev
           (NewsSearch.handleSubmit q sortBy language) sig) = [])
  /\ forall r,
       In r (sent (Client.searchEverything E env ev
                     (NewsSearch.handleSubmit q sortBy language) sig)) ->
       exists fields,
         req_url r
         = make_url (base (Client.getNewsApiConfig E env))
             (Client.resolvePath (ClientSpec.proxy_mode E env) (lit "search"))
             (searchParams_toString fields)
         /\ trim q <> []
         /\ query_field (lit "q") fields = Some (trim q)
         /\ query_field (lit "pageSize") fields
            = Some (NumberToString E (num 10))
         /\ query_field (lit "page") fields = Some (NumberToString E (num 1))
         /\ query_field (lit "sortBy") fields
            = Some (if existsb (str_eqb sortBy) allowed_sort
                    then sortBy else lit "publishedAt")
         /\ query_field (lit "language") fields
            = match language with [] => None | _ => Some language end.
Proof.
  assert (Hq : searchQuery E (NewsSearch.handleSubmit q sortBy language)
               = trim q).
  { unfold searchQuery, NewsSearch.handleSubmit. cbn [lookup].
    change (str_eqb (lit "q") (lit "q")) with true. cbv iota.
    destruct q; reflexivity. }
  split.
  - intro Ht. rewrite searchEverything_run, Hq, Ht. reflexivity.
  - intros r H.
    assert (Hne : searchQuery E (NewsSearch.handleSubmit q sortBy language)
                  <> []).
    { apply (searchEverything_sent_query E env ev _ sig).
      intro Hs. rewrite Hs in H. destruct H. }
    apply client_search_requests in H. destruct H as (-> & _).
    exists (queryPairs E
              (searchParams E (NewsSearch.handleSubmit q sortBy language))).
    split; [reflexivity|]. split; [rewrite <- Hq; exact Hne|].
    destruct (search_query_paging E
                (NewsSearch.handleSubmit q sortBy language)) as [Hps Hp].
    cbv zeta in Hps, Hp.
    rewrite Hps, Hp, !search_query_field.
    change (lookup (lit "q")
              (searchParams E (NewsSearch.handleSubmit q sortBy language)))
      with (VStr (searchQuery E (NewsSearch.handleSubmit q sortBy language))).
    rewrite Hq in *.
    split; [destruct (trim q); [congruence|reflexivity]|].
    split; [reflexivity|]. split; [reflexivity|].
    split.
    + change (lookup (lit "sortBy")
                (searchParams E (NewsSearch.handleSubmit q sortBy language)))
        with (if is_string (VStr sortBy) (lit "relevancy")
                 || is_string (VStr sortBy) (lit "popularity")
                 || is_string (VStr sortBy) (lit "publishedAt")
              then VStr sortBy else VStr (lit "publishedAt")).
      cbn [is_string existsb allowed_sort].
      rewrite orb_false_r, orb_assoc.
      destruct (str_eqb sortBy (lit "relevancy")) eqn:H1;
        [apply str_eqb_eq in H1; subst; reflexivity|].
      destruct (str_eqb sortBy (lit "popularity")) eqn:H2;
        [apply str_eqb_eq in H2; subst; reflexivity|].
      destruct (str_eqb sortBy (lit "publishedAt")) eqn:H3;
        [apply str_eqb_eq in H3; subst; reflexivity|].
      reflexivity.
    + change (lookup (lit "language")
                (searchParams E (NewsSearch.handleSubmit q sortBy language)))
        with (VStr language).
      destruct language; reflexivity.
Qed.

(** A run of X16: the form's search for ' rocq ' sorted by 'bogus'. *)
Lemma search_form_witness :
  In (ClientSpec.request_of Sample.R Sample.direct (lit "search")
        (searchParams Sample.R Inputs.form_search))
     (sent (Client.searchEverything Sample.R Sample.direct
              (Responds Sample.two_articles)
              (NewsSearch.handleSubmit (lit " rocq ") (lit "bogus") (lit "en"))
              fresh_signal))
  /\ req_url
       (ClientSpec.request_of Sample.R Sample.direct (lit "search")
          (searchParams Sample.R Inputs.form_search))
     = lit "https://newsapi.org/v2/everything?q=rocq&sortBy=publishedAt&language=en&pageSize=10&page=1"
  /\ exists fields,
       query_field (lit "q") fields = Some (lit "rocq")
       /\ query_field (lit "sortBy") fields = Some (lit "publishedAt").
Proof.
  assert (Hin : In (ClientSpec.request_of Sample.R Sample.direct (lit "search")
                      (searchParams Sample.R Inputs.form_search))
                   (sent (Client.searchEverything Sample.R Sample.direct
                            (Responds Sample.two_articles)
                            (NewsSearch.handleSubmit (lit " rocq ")
                               (lit "bogus") (lit "en"))
                            fresh_signal)))
    by (left; reflexivity).
  split; [exact Hin|]. split; [reflexivity|].
  destruct (search_form_request Sample.R Sample.direct
              (Responds Sample.two_articles) (lit " rocq ") (lit "bogus")
              (lit "en") fresh_signal) as (_ & H).
  destruct (H _ Hin) as (fields & _ & _ & Hq & _ & _ & Hsort & _).
  exists fields. split; [exact Hq|exact Hsort].
Defined.

(** * Properties of the revision without modes *)

Section LegacyFacts.

Variable E : Engine.

Lemma legacy_apiKey env :
  apiKey (Legacy.getNewsApiConfig E env)
  = match first_set [REACT_APP_NEWS_API_KEY env;
                     REACT_APP_REACT_APP_NEWSAPI_KEY env] with
    | Some key => VStr key
    | None =>
        match REACT_APP_REACT_APP_NEWSAPI_KEY env with
        | Some [] => VStr []
        | _ => VUndefined
        end
    end.
Proof.
  unfold Legacy.getNewsApiConfig. cbn [apiKey].
  destruct (REACT_APP_NEWS_API_KEY env) as [[|c1 k1]|],
    (REACT_APP_REACT_APP_NEWSAPI_KEY env) as [[|c2 k2]|]; reflexivity.
Qed.

Lemma legacy_getTopHeadlines_run env ev filters sig :
  Legacy.getTopHeadlines E env ev filters sig
  = bind (Legacy.doFetch E env ev (lit "top-headlines")
            (headlineParams E filters) sig)
      (Legacy.normalize E).
Proof. reflexivity. Qed.

Lemma legacy_searchEverything_run env ev filters sig :
  Legacy.searchEverything E env ev filters sig
  = match searchQuery E filters with
    | [] => throw (ThrownError validationError)
    | _ =>
        bind (Legacy.doFetch E env ev (lit "everything")
                (searchParams E filters) sig)
          (Legacy.normalize E)
    end.
Proof.
  unfold Legacy.searchEverything.
  destruct (searchQuery E filters); reflexivity.
Qed.

Lemma legacy_doFetch_without_key env ev endpoint p sig :
  first_set [REACT_APP_NEWS_API_KEY env; REACT_APP_REACT_APP_NEWSAPI_KEY env]
  = None ->
  Legacy.doFetch E env ev endpoint p sig
  = throw (ThrownError Legacy.missingKeyError).
Proof.
  intro Hk. rewrite legacy_doFetch_run, legacy_apiKey, Hk.
  destruct (REACT_APP_REACT_APP_NEWSAPI_KEY env) as [[|c k]|]; reflexivity.
Qed.

Lemma legacy_doFetch_succeeds env endpoint p sig r :
  sent (Legacy.doFetch E env (Responds r) endpoint p sig) <> [] ->
  res_ok r = true ->
  is_string (opt_get (parsed_body r) (lit "status")) (lit "error") = false ->
  Legacy.doFetch E env (Responds r) endpoint p sig
  = ([LegacySpec.request_of E env endpoint p], Fulfilled (parsed_body r)).
Proof.
  rewrite legacy_doFetch_run. unfold sent, throw.
  destruct (truthy (apiKey _)); cbn [negb fst];
    [|intro H; exfalso; apply H; reflexivity].
  destruct (has_http_scheme _); cbn [negb fst];
    [|intro H; exfalso; apply H; reflexivity].
  destruct (linkSignal sig); cbn [fst];
    [intro H; exfalso; apply H; reflexivity|].
  intros _ Hok Hst. cbn [LegacySpec.after_request].
  unfold LegacySpec.settle. rewrite Hok, Hst. reflexivity.
Qed.

End LegacyFacts.

(** X17. In the revision without modes, when neither
    REACT_APP_NEWS_API_KEY nor REACT_APP_REACT_APP_NEWSAPI_KEY is set to a
    non-empty string, both operations reject with an error whose code is
    CONFIG and send nothing, whatever the base URL, a proxy included
    (searchEverything with an empty query rejects on the query first). *)
Theorem legacy_needs_a_key_for_every_base E env ev filters sig :
  first_set [REACT_APP_NEWS_API_KEY env; REACT_APP_REACT_APP_NEWSAPI_KEY env]
  = None ->
  Legacy.getTopHeadlines E env ev filters sig
  = ([], Rejected (ThrownError Legacy.missingKeyError))
  /\ (searchQuery E filters <> [] ->
      Legacy.searchEverything E env ev filters sig
      = ([], Rejected (ThrownError Legacy.missingKeyError)))
  /\ err_code Legacy.missingKeyError = VStr (lit "CONFIG").
Proof.
  intro Hk. split; [|split].
  - rewrite legacy_getTopHeadlines_run,
      (legacy_doFetch_without_key E _ _ _ _ _ Hk).
    reflexivity.
  - intro Hq. rewrite legacy_searchEverything_run.
    destruct (searchQuery E filters); [congruence|].
    rewrite (legacy_doFetch_without_key E _ _ _ _ _ Hk). reflexivity.
  - reflexivity.
Qed.

(** A run of X17: a proxy and no key. *)
Lemma legacy_needs_a_key_witness :
  first_set [REACT_APP_NEWS_API_KEY Sample.proxied;
             REACT_APP_REACT_APP_NEWSAPI_KEY Sample.proxied] = None
  /\ Legacy.getTopHeadlines Sample.R Sample.proxied
       (Responds Sample.two_articles) [] None
     = ([], Rejected (ThrownError Legacy.missingKeyError)).
Proof.
  split; [reflexivity|].
  apply (legacy_needs_a_key_for_every_base Sample.R Sample.proxied
           (Responds Sample.two_articles) [] None).
  reflexivity.
Defined.

(** X18. In the revision without modes, a response with a status in 200-299
    whose body parses to anything but null (or undefined), and does not say
    status 'error', makes both operations resolve with the payload normalized
    as in the proxy-aware revision: totalResults or 0, and the articles when
    they are an array, the empty array otherwise. *)
Theorem legacy_normalizes_a_payload_that_is_not_null E env filters sig r :
  res_ok r = true ->
  is_string (opt_get (parsed_body r) (lit "status")) (lit "error") = false ->
  parsed_body r <> VNull -> parsed_body r <> VUndefined ->
  (sent (Legacy.getTopHeadlines E env (Responds r) filters sig) <> [] ->
   outcome (Legacy.getTopHeadlines E env (Responds r) filters sig)
   = Fulfilled (Client.normalize (parsed_body r)))
  /\ (sent (Legacy.searchEverything E env (Responds r) filters sig) <> [] ->
      outcome (Legacy.searchEverything E env (Responds r) filters sig)
      = Fulfilled (Client.normalize (parsed_body r)))
  /\ totalResults (Client.normalize (parsed_body r))
     = js_or (opt_get (parsed_body r) (lit "totalResults")) (VNum (num 0))
  /\ exists items, articles (Client.normalize (parsed_body r)) = VArr items.
Proof.
  intros Hok Hst Hnull Hund.
  pose proof (legacy_normalize_not_null E (parsed_body r) Hnull Hund) as Hn.
  assert (Hd : forall endpoint p,
             sent (bind (Legacy.doFetch E env (Responds r) endpoint p sig)
                     (Legacy.normalize E)) <> [] ->
             outcome (bind (Legacy.doFetch E env (Responds r) endpoint p sig)
                        (Legacy.normalize E))
             = Fulfilled (Client.normalize (parsed_body r))).
  { intros endpoint p H.
    rewrite sent_bind_quiet in H by apply legacy_normalize_sends_nothing.
    rewrite (legacy_doFetch_succeeds E env endpoint p sig r H Hok Hst).
    unfold bind. rewrite Hn. reflexivity. }
  split; [|split; [|split]].
  - rewrite legacy_getTopHeadlines_run. apply Hd.
  - rewrite legacy_searchEverything_run.
    destruct (searchQuery E filters);
      [intro H; exfalso; apply H; reflexivity|].
    apply Hd.
  - reflexivity.
  - apply normalize_articles_is_array.
Qed.

(** A run of X18: a payload with two articles. *)
Lemma legacy_normalizes_witness :
  res_ok Sample.two_articles = true
  /\ parsed_body Sample.two_articles <> VNull
  /\ sent (Legacy.getTopHeadlines Sample.R Sample.direct
             (Responds Sample.two_articles) [] None) <> []
  /\ outcome (Legacy.getTopHeadlines Sample.R Sample.direct
                (Responds Sample.two_articles) [] None)
     = Fulfilled (Client.normalize (parsed_body Sample.two_articles)).
Proof.
  split; [reflexivity|]. split; [discriminate|]. split; [discriminate|].
  apply (legacy_normalizes_a_payload_that_is_not_null Sample.R Sample.direct
           [] None Sample.two_articles);
    try reflexivity; discriminate.
Defined.
